(** * Grading pipeline of the code-judging backend

    A shallow embedding of [services/codeExecution.js]: the submission
    validator ([validateCode]), the harness writer ([prepareTestFile]), the
    runner and result interpreter ([executeCode]) and the facade ([runCode]),
    together with the Python driver that [prepareTestFile] appends to every
    submission.

    Conventions.
    - A JavaScript string is a [string] holding its text in UTF-8, the
      encoding in which [writeFileSync] stores it and [exec] reads the
      output of the process. [trim] removes every WhiteSpace and
      LineTerminator code point of ECMAScript, also those of two and three
      bytes; splitting at LF and testing an ASCII prefix are the same on
      bytes as on code units.
    - The file system is a finite map from paths to contents, threaded
      through the effectful functions together with the list of external
      actions a run performs.
    - What the environment decides (the random identifier, whether a file
      operation throws, what the interpreter process prints, what
      [JSON.parse] makes of a text) is read from a [World] record.
    - The callback of [exec] is invoked when the interpreter process ends
      (by completion or by termination from the host); the code sets no
      timeout, so when the process never ends the promise of [executeCode]
      is never settled and [runCode] stays [Pending].
    - [path.join] belongs to the platform and is read from the [World]
      like the temporary directory it is applied to. *)

From Stdlib Require Import Ascii.
From Stdlib Require Import DecimalString.
From stdpp Require Import gmap strings list fin_maps sorting.

(** ** Strings as [String.prototype] sees them *)

Module JsString.

Definition TAB : ascii := "009"%char.
Definition LF : ascii := "010"%char.
Definition DQ : ascii := "034"%char.

(** A text between double quotes, as in [`python "${filePath}"`]. *)
Definition quoted (s : string) : string :=
  String DQ (s +:+ String DQ "").

(** WhiteSpace and LineTerminator code points of one byte:
    TAB, LF, VT, FF, CR and SP. *)
Definition is_ws (c : ascii) : bool :=
  match nat_of_ascii c with
  | 9 | 10 | 11 | 12 | 13 | 32 => true
  | _ => false
  end.

Definition code (c : ascii) : N := N_of_ascii c.

(** Of two bytes: U+00A0. *)
Definition is_ws2 (c1 c2 : ascii) : bool :=
  ((code c1 =? 194) && (code c2 =? 160))%N.

(** Of three bytes: U+1680, U+2000 to U+200A, U+2028, U+2029, U+202F,
    U+205F, U+3000 and U+FEFF. *)
Definition is_ws3 (c1 c2 c3 : ascii) : bool :=
  (((code c1 =? 225) && (code c2 =? 154) && (code c3 =? 128))
   || ((code c1 =? 226) && (code c2 =? 128)
       && (((128 <=? code c3) && (code c3 <=? 138))
           || (code c3 =? 168) || (code c3 =? 169) || (code c3 =? 175)))
   || ((code c1 =? 226) && (code c2 =? 129) && (code c3 =? 159))
   || ((code c1 =? 227) && (code c2 =? 128) && (code c3 =? 128))
   || ((code c1 =? 239) && (code c2 =? 187) && (code c3 =? 191)))%N.

(** U+FEFF, the byte order mark. *)
Definition BOM : string :=
  String "239"%char (String "187"%char (String "191"%char EmptyString)).

Definition isEmpty (s : string) : bool :=
  match s with EmptyString => true | String _ _ => false end.

Fixpoint trimStart (s : string) : string :=
  match s with
  | EmptyString => EmptyString
  | String c1 r1 =>
      if is_ws c1 then trimStart r1
      else
        match r1 with
        | EmptyString => s
        | String c2 r2 =>
            if is_ws2 c1 c2 then trimStart r2
            else
              match r2 with
              | EmptyString => s
              | String c3 r3 => if is_ws3 c1 c2 c3 then trimStart r3 else s
              end
        end
  end.

(** The text is cut where nothing but white space follows. *)
Fixpoint trimEnd (s : string) : string :=
  match s with
  | EmptyString => EmptyString
  | String c rest =>
      if isEmpty (trimStart s) then EmptyString else String c (trimEnd rest)
  end.

(** [s.trim()] *)
Definition trim (s : string) : string := trimEnd (trimStart s).

(** [s.startsWith(p)] *)
Definition startsWith (s p : string) : bool := String.prefix p s.

(** [s.split('\n')]: never empty, the empty text gives one empty line. *)
Fixpoint split_lines (s : string) : list string :=
  match s with
  | EmptyString => [EmptyString]
  | String c rest =>
      if Ascii.eqb c LF then EmptyString :: split_lines rest
      else match split_lines rest with
           | l :: ls => String c l :: ls
           | [] => [String c EmptyString]
           end
  end.

(** [lines.join('\n')] *)
Fixpoint join_lines (lines : list string) : string :=
  match lines with
  | [] => EmptyString
  | [l] => l
  | l :: rest => l +:+ String LF (join_lines rest)
  end.

(** A byte below 128 that is not white space: it belongs to no white
    space code point. *)
Definition solid (c : ascii) : bool := negb (is_ws c) && (code c <? 128)%N.

(** The last byte of a text is solid (or the text is empty): trimming the
    end of a text cannot reach into such a prefix. *)
Fixpoint ends_solid (p : string) : bool :=
  match p with
  | EmptyString => true
  | String c EmptyString => solid c
  | String _ rest => ends_solid rest
  end.

(** No byte of the text is solid. *)
Fixpoint no_solid (s : string) : bool :=
  match s with
  | EmptyString => true
  | String c r => negb (solid c) && no_solid r
  end.

End JsString.

Import JsString.

(** ** Arrays: [findIndex] and [splice] *)

(** [lines.findIndex(p)]; [None] stands for the result [-1]. *)
Fixpoint findIndex {A : Type} (p : A -> bool) (l : list A) : option nat :=
  match l with
  | [] => None
  | x :: rest => if p x then Some 0 else S <$> findIndex p rest
  end.

(** [lines.splice(i, 0, x)]: [x] is inserted before position [i]. *)
Definition splice_insert {A : Type} (i : nat) (x : A) (l : list A) : list A :=
  take i l ++ x :: drop i l.

(** ** Harness synthesizer, part 1: [validateCode] *)

Inductive Validation : Type :=
| Invalid (error : string)
| Valid (modifiedCode : string) (message : option string).

Definition NO_FUNCTION_ERROR : string :=
  "No two_sum function found. Please define a function named two_sum(nums, target).".

Definition PASS_LINE : string := "    pass  # Added automatically".

Definition EMPTY_BODY_MESSAGE : string :=
  "Your function appears to be empty. A pass statement has been added to make it valid.".

(** The predicate of [findIndex] on line 21. *)
Definition is_definition_line (line : string) : bool :=
  startsWith (trim line) "def two_sum".

(** Line 36: the line is part of the function. *)
Definition indented (raw : string) : bool :=
  startsWith raw " " || startsWith raw (String TAB "").

(** The [for] loop of lines 32-46 over the lines after the definition:
    [true] as soon as an indented line holds something other than a
    comment, [false] at the first non-empty line that is not indented, or
    at the end. *)
Fixpoint hasImplementation (after : list string) : bool :=
  match after with
  | [] => false
  | raw :: rest =>
      let line := trim raw in
      if indented raw then
        if negb (isEmpty line) && negb (startsWith line "#") then true
        else hasImplementation rest
      else if negb (isEmpty line) then false
      else hasImplementation rest
  end.

Definition validateCode (code : string) : Validation :=
  let lines := split_lines code in
  match findIndex is_definition_line lines with
  | None => Invalid NO_FUNCTION_ERROR
  | Some functionLineIndex =>
      if hasImplementation (drop (functionLineIndex + 1) lines) then
        Valid code None
      else
        Valid (join_lines (splice_insert (functionLineIndex + 1) PASS_LINE lines))
              (Some EMPTY_BODY_MESSAGE)
  end.

(** ** JavaScript values *)

(** The operations on IEEE-754 doubles that the pipeline uses.  Their
    arithmetic is kept abstract; [Fixed4] below is the instance the worked
    examples run on. *)
Class JsNumber (num : Type) : Type := {
  of_nat : nat -> num;                  (* a small non-negative integer *)
  nan : num;
  num_add : num -> num -> num;          (* [a + b] on two numbers *)
  num_eqb : num -> num -> bool;         (* [a === b] on two numbers *)
  num_truthy : num -> bool;             (* neither [0] nor [NaN] *)
  num_isFinite : num -> bool;           (* neither [NaN] nor an infinity *)
  num_toString : num -> string;         (* [String(a)] *)
  toFixed4 : num -> string              (* [a.toFixed(4)] *)
}.

Definition zero {num : Type} `{JsNumber num} : num := of_nat 0.
Definition one {num : Type} `{JsNumber num} : num := of_nat 1.

(** What [JSON.parse] returns, and [undefined] for absent properties.  An
    object lists its properties in insertion order, one entry per key. *)
#[warnings="-register-all"]
Inductive value {num : Type} : Type :=
| VUndefined
| VNull
| VBool (b : bool)
| VNum (n : num)
| VStr (s : string)
| VArr (items : list value)
| VObj (props : list (string * value)).
Arguments value : clear implicits.

(** A thrown [Error] object; only its [message] is ever read. *)
Module Error.
Record t : Type := mk { message : string }.
End Error.

(** The places where the engine itself raises a [TypeError]. *)
Inductive Fault : Type :=
| ReadOfNullish (property : string)   (* [null.length], [undefined.passed] *)
| NotAFunction (callee : string)      (* [results.every], [(...).toFixed] *)
| NotPrimitive.                       (* an operand of [+] has no primitive value *)

(** Normal or abrupt completion of an expression. *)
Inductive Completion (A : Type) : Type :=
| Normal (a : A)
| Throw (e : Error.t).
Arguments Normal {A} a.
Arguments Throw {A} e.

#[global] Instance Completion_ret : MRet Completion := fun A a => Normal a.
#[global] Instance Completion_bind : MBind Completion := fun A B k m =>
  match m with
  | Normal a => k a
  | Throw e => Throw e
  end.

(** ** The environment of one grading run *)

Inductive ExecOutcome : Type :=
| ExecThrows (e : Error.t)
    (* [exec] throws before any process exists *)
| ExecCallback (error : option Error.t) (stdout stderr : string)
    (* the callback is invoked with [(error, stdout, stderr)] *)
| ExecPending.
    (* the process never ends and, no timeout being set, the callback is
       never invoked *)

Record World {num : Type} : Type := {
  TEMP_DIR : string;                                (* [os.tmpdir()] *)
  path_join : string -> string -> string;           (* [path.join(dir, name)] *)
  uuidv4 : string;                                  (* the identifier drawn for this run *)
  writeFileSync_throws : option Error.t;
  exec_outcome : ExecOutcome;
  process_files : gmap string string -> gmap string string;
    (* what the interpreter process does to the file system *)
  unlinkSync_throws : option Error.t;
  JSON_parse : string -> Completion (value num);
  typeError : Fault -> Error.t
}.
Arguments World : clear implicits.

(** The calls a run makes to the outside. *)
Inductive Action : Type :=
| WriteFile (path content : string)
| Exec (command : string)
| Unlink (path : string)
| Parse (text : string).

(** How a block that may [await] ends: with a completion, or never, when
    it awaits a promise that is never settled. *)
Inductive Awaited (A : Type) : Type :=
| Settled (c : Completion A)
| Pending.
Arguments Settled {A} c.
Arguments Pending {A}.

Coercion Settled : Completion >-> Awaited.

(** An effectful computation: from the file system before, its completion,
    the file system after and the calls made, in order. *)
Record Run (A : Type) : Type := mkRun {
  completion : Awaited A;
  files : gmap string string;
  actions : list Action
}.
Arguments mkRun {A} _ _ _.
Arguments completion {A} _.
Arguments files {A} _.
Arguments actions {A} _.

Definition Eff (A : Type) : Type := gmap string string -> Run A.

#[global] Instance Eff_ret : MRet Eff := fun A a fs => mkRun (Normal a) fs [].
#[global] Instance Eff_bind : MBind Eff := fun A B k m fs =>
  let r := m fs in
  match completion r with
  | Settled (Normal a) =>
      let r' := k a (files r) in
      mkRun (completion r') (files r') (actions r ++ actions r')
  | Settled (Throw e) => mkRun (Throw e) (files r) (actions r)
  | Pending => mkRun Pending (files r) (actions r)
  end.

(** [throw e] *)
Definition throw {A : Type} (e : Error.t) : Eff A :=
  fun fs => mkRun (Throw e) fs [].

(** [try { body } catch (e) { handler e }] *)
Definition try_catch {A : Type} (body : Eff A) (handler : Error.t -> Eff A) : Eff A :=
  fun fs =>
    let r := body fs in
    match completion r with
    | Settled (Normal _) | Pending => r
    | Settled (Throw e) =>
        let r' := handler e (files r) in
        mkRun (completion r') (files r') (actions r ++ actions r')
    end.

(** An expression without effects, evaluated inside an effectful block. *)
Definition pure {A : Type} (c : Completion A) : Eff A :=
  fun fs => mkRun c fs [].

(** ** Harness synthesizer, part 2: the driver appended to the submission *)

(** The fixed battery of lines 83-87: input description and expected text. *)
Definition testCases : list (string * string) :=
  [ ("[2, 7, 11, 15], 9", "[0, 1]");
    ("[3, 2, 4], 6", "[1, 2]");
    ("[3, 3], 6", "[0, 1]") ].

(** One [# Test case n] block of the template (lines 99-115, 117-133,
    135-151). *)
Definition case_block (n nums target input expected : string) : list string :=
  [ "        # Test case " +:+ n;
    "        start_time = time.time()";
    "        nums = " +:+ nums;
    "        target = " +:+ target;
    "        expected = " +:+ quoted expected;
    "        ";
    "        actual = two_sum(nums, target)";
    "        execution_time = time.time() - start_time";
    "        ";
    "        results.append({";
    "            " +:+ quoted "case" +:+ ": " +:+ n +:+ ",";
    "            " +:+ quoted "input" +:+ ": " +:+ quoted input +:+ ",";
    "            " +:+ quoted "expected" +:+ ": " +:+ quoted expected +:+ ",";
    "            " +:+ quoted "actual" +:+ ": str(actual),";
    "            " +:+ quoted "passed" +:+ ": str(actual) == " +:+ quoted expected +:+ ",";
    "            " +:+ quoted "execution_time" +:+ ": execution_time";
    "        })" ].

(** The text that follows [${validatedCode}] in the template of lines
    90-161, from the line break after the submission to the final one. *)
Definition DRIVER : string :=
  join_lines
    ([ ""; "";
       "import json";
       "import time";
       "";
       "def run_tests():";
       "    results = []";
       "    ";
       "    try:" ]
     ++ case_block "1" "[2, 7, 11, 15]" "9" "[2, 7, 11, 15], 9" "[0, 1]"
     ++ [ "        " ]
     ++ case_block "2" "[3, 2, 4]" "6" "[3, 2, 4], 6" "[1, 2]"
     ++ [ "        " ]
     ++ case_block "3" "[3, 3]" "6" "[3, 3], 6" "[0, 1]"
     ++ [ "    except Exception as e:";
          "        results.append({";
          "            " +:+ quoted "error" +:+ ": str(e)";
          "        })";
          "    ";
          "    return results";
          "";
          "# Run tests and print JSON results";
          "print(json.dumps(run_tests()))";
          "" ]).

(** ** The verdict returned to the caller *)

Record Verdict {num : Type} : Type := mkVerdict {
  success : bool;
  output : option string;
  testResults : option (value num);
  executionTime : option string;
  message : option string;
  error : option (value num)
}.
Arguments Verdict : clear implicits.
Arguments mkVerdict {num} _ _ _ _ _ _.

(** [{ success: false, error: e }] *)
Definition failure {num : Type} (e : value num) : Verdict num :=
  mkVerdict false None None None None (Some e).

Section Pipeline.

Context {num : Type} `{JsNumber num}.
Variable w : World num.

Local Abbreviation value := (value num).
Local Abbreviation Verdict := (Verdict num).

(** *** Expressions over parsed values *)

(** [Boolean(v)] *)
Definition truthy (v : value) : bool :=
  match v with
  | VUndefined | VNull => false
  | VBool b => b
  | VNum n => num_truthy n
  | VStr s => negb (isEmpty s)
  | VArr _ | VObj _ => true
  end.

Fixpoint lookup_prop (key : string) (props : list (string * value)) : value :=
  match props with
  | [] => VUndefined
  | (k, v) :: rest => if String.eqb k key then v else lookup_prop key rest
  end.

(** [v.key] for the data properties [error], [passed] and
    [execution_time], which no prototype defines. *)
Definition get (key : string) (v : value) : Completion value :=
  match v with
  | VUndefined | VNull => Throw (typeError w (ReadOfNullish key))
  | VObj props => Normal (lookup_prop key props)
  | _ => Normal VUndefined
  end.

(** [results.length === 1] *)
Definition length_is_1 (results : value) : Completion bool :=
  match results with
  | VUndefined | VNull => Throw (typeError w (ReadOfNullish "length"))
  | VArr items => Normal (Nat.eqb (length items) 1)
  | VStr s => Normal (Nat.eqb (String.length s) 1)
  | VObj props =>
      Normal match lookup_prop "length" props with
             | VNum n => num_eqb n one
             | _ => false
             end
  | _ => Normal false
  end.

(** [results[0]] *)
Definition index_0 (results : value) : Completion value :=
  match results with
  | VUndefined | VNull => Throw (typeError w (ReadOfNullish "0"))
  | VArr items => Normal (default VUndefined (head items))
  | VStr (String c _) => Normal (VStr (String c ""))
  | VObj props => Normal (lookup_prop "0" props)
  | _ => Normal VUndefined
  end.

(** Line 205, [results.length === 1 && results[0].error]: the error of a
    single-element error record when the test holds. *)
Definition single_error (results : value) : Completion (option value) :=
  single ← length_is_1 results;
  if single : bool then
    e ← index_0 results ≫= get "error";
    mret (if truthy e then Some e else None)
  else mret None.

(** The callback of [every] on line 212. *)
Definition passed_flag (result : value) : Completion bool :=
  passed ← get "passed" result;
  mret match passed with
       | VStr s => String.eqb s "True"
       | VBool b => b
       | _ => false
       end.

Fixpoint every_passed (items : list value) : Completion bool :=
  match items with
  | [] => mret true
  | result :: rest =>
      ok ← passed_flag result;
      if ok : bool then every_passed rest else mret false
  end.

(** [results.every(...)] *)
Definition every (results : value) : Completion bool :=
  match results with
  | VArr items => every_passed items
  | VUndefined | VNull => Throw (typeError w (ReadOfNullish "every"))
  | _ => Throw (typeError w (NotAFunction "results.every"))
  end.

(** [String(v)]; [None] when the conversion throws: an object whose own
    [toString] property hides the inherited method has no primitive
    value, since nothing that comes out of [JSON.parse] can be called. *)
Fixpoint js_toString (v : value) : option string :=
  match v with
  | VUndefined => Some "undefined"
  | VNull => Some "null"
  | VBool true => Some "true"
  | VBool false => Some "false"
  | VNum n => Some (num_toString n)
  | VStr s => Some s
  | VArr items =>
      (fix join_items (l : list value) : option string :=
         match l with
         | [] => Some ""
         | x :: rest =>
             first ← match x with
                     | VUndefined | VNull => Some ""
                     | _ => js_toString x
                     end;
             match rest with
             | [] => Some first
             | _ => others ← join_items rest; Some (first +:+ "," +:+ others)
             end
         end) items
  | VObj props =>
      if existsb (fun kv => String.eqb (fst kv) "toString") props then None
      else Some "[object Object]"
  end.

(** [ToPrimitive(v)] *)
Definition toPrimitive (v : value) : Completion value :=
  match v with
  | VArr _ | VObj _ =>
      match js_toString v with
      | Some s => Normal (VStr s)
      | None => Throw (typeError w NotPrimitive)
      end
  | _ => Normal v
  end.

(** [ToNumber(v)] of a primitive that is not a string. *)
Definition toNumber (v : value) : num :=
  match v with
  | VNull | VBool false => zero
  | VBool true => one
  | VNum n => n
  | _ => nan
  end.

(** [a + b] *)
Definition js_plus (a b : value) : Completion value :=
  pa ← toPrimitive a;
  pb ← toPrimitive b;
  mret match pa, pb with
       | VStr s, _ => VStr (s +:+ default "" (js_toString pb))
       | _, VStr t => VStr (default "" (js_toString pa) +:+ t)
       | _, _ => VNum (num_add (toNumber pa) (toNumber pb))
       end.

(** The callback of [reduce] on line 213:
    [acc + (curr.execution_time || 0)]. *)
Definition add_time (acc curr : value) : Completion value :=
  t ← get "execution_time" curr;
  js_plus acc (if truthy t then t else VNum zero).

Fixpoint reduce_time (items : list value) (acc : value) : Completion value :=
  match items with
  | [] => mret acc
  | curr :: rest => acc' ← add_time acc curr; reduce_time rest acc'
  end.

(** [results.reduce(..., 0)] *)
Definition reduce (results : value) : Completion value :=
  match results with
  | VArr items => reduce_time items (VNum zero)
  | VUndefined | VNull => Throw (typeError w (ReadOfNullish "reduce"))
  | _ => Throw (typeError w (NotAFunction "results.reduce"))
  end.

(** [total.toFixed(4)] *)
Definition toFixed (total : value) : Completion string :=
  match total with
  | VNum n => Normal (toFixed4 n)
  | VUndefined | VNull => Throw (typeError w (ReadOfNullish "toFixed"))
  | _ => Throw (typeError w (NotAFunction "results.reduce(...).toFixed"))
  end.

(** [if (message)] *)
Definition attach_message (message : option string) : option string :=
  match message with
  | Some m => if isEmpty m then None else Some m
  | None => None
  end.

(** Lines 204-227: from the parsed output to the verdict. *)
Definition verdict_of_results (message : option string) (results : value)
  : Completion Verdict :=
  err ← single_error results;
  match err with
  | Some e => mret (failure e)
  | None =>
      allPassed ← every results;
      total ← reduce results;
      totalTime ← toFixed total;
      mret {| success := allPassed;
              output := Some (if allPassed : bool then "All test cases passed!"
                              else "Some test cases failed.");
              testResults := Some results;
              executionTime := Some (totalTime +:+ "s");
              message := attach_message message;
              error := None |}
  end.

(** *** Calls to the outside *)

(** [fs.writeFileSync(path, content)] *)
Definition writeFileSync (path content : string) : Eff unit :=
  fun fs =>
    match writeFileSync_throws w with
    | Some e => mkRun (Throw e) fs [WriteFile path content]
    | None => mkRun (Normal ()) (<[path := content]> fs) [WriteFile path content]
    end.

(** [fs.unlinkSync(path)] *)
Definition unlinkSync (path : string) : Eff unit :=
  fun fs =>
    match unlinkSync_throws w with
    | Some e => mkRun (Throw e) fs [Unlink path]
    | None => mkRun (Normal ()) (delete path fs) [Unlink path]
    end.

(** [JSON.parse(text)] *)
Definition parse (text : string) : Eff value :=
  fun fs => mkRun (JSON_parse w text) fs [Parse text].

(** [new Promise(resolve => exec(command, callback))] awaited: the value
    the callback resolves the promise with, or the rejection when [exec]
    itself throws. *)
Definition exec {A : Type} (command : string)
    (callback : option Error.t -> string -> string -> Eff A) : Eff A :=
  fun fs =>
    match exec_outcome w with
    | ExecThrows e => mkRun (Throw e) fs [Exec command]
    | ExecCallback error stdout stderr =>
        let r := callback error stdout stderr (process_files w fs) in
        mkRun (completion r) (files r) (Exec command :: actions r)
    | ExecPending => mkRun Pending (process_files w fs) [Exec command]
    end.

(** *** [prepareTestFile], [executeCode], [runCode] *)

Definition prepareTestFile (code : string) : Eff (string * option string) :=
  let uuid := uuidv4 w in
  let filePath := path_join w (TEMP_DIR w) (uuid +:+ ".py") in
  match validateCode code with
  | Invalid error => throw (Error.mk error)
  | Valid validatedCode message =>
      let testCode := validatedCode +:+ DRIVER in
      try_catch
        (writeFileSync filePath testCode;; mret (filePath, message))
        (fun error => throw error)
  end.

Definition executeCode (filePath : string) (message : option string) : Eff Verdict :=
  exec ("python " +:+ quoted filePath) (fun error stdout stderr =>
    try_catch
      (unlinkSync filePath;;
       match error with
       | Some error =>
           mret (failure (VStr (if isEmpty stderr then Error.message error else stderr)))
       | None =>
           try_catch
             (results ← parse stdout;
              pure (verdict_of_results message results))
             (fun parseError =>
                mret (failure (VStr ("Failed to parse Python output: "
                                     +:+ Error.message parseError
                                     +:+ String LF ("Raw output: " +:+ stdout)))))
       end)
      (fun err =>
         mret (failure (VStr ("Failed to process execution results: "
                              +:+ Error.message err))))).

Definition runCode (code : string) : Eff Verdict :=
  try_catch
    ('(filePath, message) ← prepareTestFile code;
     executeCode filePath message)
    (fun error =>
       mret (failure (VStr ("Failed to execute code: " +:+ Error.message error)))).

End Pipeline.

(** ** The driver, as the interpreter process runs it *)

Section Driver.

Context {num : Type} `{JsNumber num}.

(** What one call [two_sum(nums, target)] of the submitted function does
    inside the [try] block: it returns, and [str(actual)] and the elapsed
    time are recorded, or an [Exception] is raised, whose [str(e)] is kept. *)
Inductive CallOutcome : Type :=
| Returns (actual : string) (execution_time : num)
| Raises (text : string).

(** The dictionary appended after a call that returned. *)
Definition outcome_record (case : nat) (input expected actual : string)
    (execution_time : num) : value num :=
  VObj [ ("case", VNum (of_nat case));
         ("input", VStr input);
         ("expected", VStr expected);
         ("actual", VStr actual);
         ("passed", VBool (String.eqb actual expected));
         ("execution_time", VNum execution_time) ].

(** The dictionary appended by the [except] clause. *)
Definition error_record (text : string) : value num :=
  VObj [ ("error", VStr text) ].

(** The [try] block: the cases in order, each appending to [results];
    the first exception leaves the block with what [results] holds then. *)
Fixpoint try_block (two_sum : nat -> CallOutcome) (case : nat)
    (cases : list (string * string)) (results : list (value num))
  : list (value num) * option string :=
  match cases with
  | [] => (results, None)
  | (input, expected) :: rest =>
      match two_sum case with
      | Raises text => (results, Some text)
      | Returns actual execution_time =>
          try_block two_sum (S case) rest
            (results ++ [outcome_record case input expected actual execution_time])
      end
  end.

(** [run_tests()]: [two_sum n] is what the submission does in case [n]. *)
Definition run_tests (two_sum : nat -> CallOutcome) : list (value num) :=
  let '(results, raised) := try_block two_sum 1 testCases [] in
  match raised with
  | Some text => results ++ [error_record text]
  | None => results
  end.

(** The cases that were answered: those that appended an outcome. *)
Definition answered (two_sum : nat -> CallOutcome) : nat :=
  length (fst (try_block two_sum 1 testCases [])).

End Driver.

(** ** The properties in the words of the specification *)

(** The line, ignoring leading white space, begins the required function
    definition. *)
Definition begins_definition (line : string) : bool :=
  startsWith (trimStart line) "def two_sum".

(** A text of white space only. *)
Definition all_ws (s : string) : bool := isEmpty (trimStart s).

Fixpoint take_while {A : Type} (p : A -> bool) (l : list A) : list A :=
  match l with
  | [] => []
  | x :: rest => if p x then x :: take_while p rest else []
  end.

Definition blank (raw : string) : bool := isEmpty (trim raw).

(** The indented block after the definition: the lines up to the first one
    that is neither indented nor blank. *)
Definition function_body (after : list string) : list string :=
  take_while (fun raw => indented raw || blank raw) after.

(** An indented line that is neither blank nor a comment. *)
Definition is_statement (raw : string) : bool :=
  indented raw && negb (blank raw) && negb (startsWith (trim raw) "#").

Definition body_is_empty (after : list string) : bool :=
  forallb (fun raw => negb (is_statement raw)) (function_body after).

(** ** Numbers for the worked examples *)

(** Non-negative multiples of 0.0001, counted in ten-thousandths, and
    [None] for [NaN]. *)
Definition Fixed4 : Type := option N.

Definition decimal (n : N) : string := NilEmpty.string_of_uint (N.to_uint n).

Definition pad4 (digits : string) : string :=
  String.concat "" (replicate (4 - String.length digits) "0") +:+ digits.

Fixpoint strip_zeros (digits : string) : string :=
  match digits with
  | EmptyString => EmptyString
  | String c rest =>
      let rest' := strip_zeros rest in
      if Ascii.eqb c "0" && isEmpty rest' then EmptyString else String c rest'
  end.

#[global] Instance Fixed4_number : JsNumber Fixed4 := {|
  of_nat n := Some (N.of_nat n * 10000)%N;
  nan := None;
  num_add a b := match a, b with Some x, Some y => Some (x + y)%N | _, _ => None end;
  num_eqb a b := match a, b with Some x, Some y => N.eqb x y | _, _ => false end;
  num_truthy a := match a with Some x => negb (N.eqb x 0) | None => false end;
  num_isFinite a := match a with Some _ => true | None => false end;
  num_toString a :=
    match a with
    | None => "NaN"
    | Some x =>
        let fraction := strip_zeros (pad4 (decimal (x mod 10000)%N)) in
        if isEmpty fraction then decimal (x / 10000)%N
        else decimal (x / 10000)%N +:+ "." +:+ fraction
    end;
  toFixed4 a :=
    match a with
    | None => "NaN"
    | Some x => decimal (x / 10000)%N +:+ "." +:+ pad4 (decimal (x mod 10000)%N)
    end
|}.

(** Seconds from ten-thousandths. *)
Definition seconds (ticks : N) : Fixed4 := Some ticks.

(** ** Outcome lists and stages, for the statements *)

Section Outcomes.

Context {num : Type} `{JsNumber num}.

(** The passed flag of a record counts: boolean [true] or the text
    ["True"]. *)
Definition honoured (result : value num) : bool :=
  match result with
  | VObj props =>
      match lookup_prop "passed" props with
      | VBool b => b
      | VStr s => String.eqb s "True"
      | _ => false
      end
  | _ => false
  end.

(** A record whose [execution_time] is a number or is missing ([null]
    counts as missing). *)
Definition is_outcome (result : value num) : bool :=
  match result with
  | VObj props =>
      match lookup_prop "execution_time" props with
      | VNum _ | VUndefined | VNull => true
      | _ => false
      end
  | _ => false
  end.

(** The payload is the single-element error record: one record with a
    non-empty [error]. *)
Definition is_error_payload (items : list (value num)) : bool :=
  match items with
  | [VObj props] => truthy (lookup_prop "error" props)
  | _ => false
  end.

(** The time a record contributes, a missing one counting as zero. *)
Definition time_of (result : value num) : num :=
  match result with
  | VObj props =>
      match lookup_prop "execution_time" props with
      | VNum n => if num_truthy n then n else zero
      | _ => zero
      end
  | _ => zero
  end.

Definition total_time (items : list (value num)) : num :=
  fold_left (fun acc result => num_add acc (time_of result)) items zero.

(** The temporary file of the run. *)
Definition temp_file (w : World num) : string :=
  path_join w (TEMP_DIR w) (uuidv4 w +:+ ".py").

(** The command line of line 181. *)
Definition python (filePath : string) : string := "python " +:+ quoted filePath.

(** The verdicts of the three [catch] clauses (lines 230-233, 237-240 and
    259-262) and of the [if (error)] branch (lines 195-198). *)
Definition parse_failure (stdout : string) (e : Error.t) : Verdict num :=
  failure (VStr ("Failed to parse Python output: " +:+ Error.message e
                 +:+ String LF ("Raw output: " +:+ stdout))).

Definition cleanup_failure (e : Error.t) : Verdict num :=
  failure (VStr ("Failed to process execution results: " +:+ Error.message e)).

Definition facade_failure (e : Error.t) : Verdict num :=
  failure (VStr ("Failed to execute code: " +:+ Error.message e)).

Definition exit_failure (e : Error.t) (stderr : string) : Verdict num :=
  failure (VStr (if isEmpty stderr then Error.message e else stderr)).

(** The stages at which a run can fail internally. *)
Inductive Stage : Type :=
| AtValidation | AtFileWrite | AtLaunch | AtCleanup | AtParsing.

(** The stage at which the run of [code] in [w] fails, if it does. *)
Definition failing_stage (w : World num) (code : string) : option Stage :=
  match validateCode code with
  | Invalid _ => Some AtValidation
  | Valid _ message =>
      match writeFileSync_throws w, exec_outcome w with
      | Some _, _ => Some AtFileWrite
      | None, ExecThrows _ => Some AtLaunch
      | None, ExecPending => None
      | None, ExecCallback error stdout _ =>
          match unlinkSync_throws w, error with
          | Some _, _ => Some AtCleanup
          | None, Some _ => Some AtLaunch
          | None, None =>
              match JSON_parse w stdout ≫= verdict_of_results w message with
              | Throw _ => Some AtParsing
              | Normal _ => None
              end
          end
      end
  end.

End Outcomes.

(** ** Worked examples: texts, worlds and submissions *)

(** The JSON text of a value laid out as [json.dumps] does, for texts
    without characters that need escaping. *)
Fixpoint json_text (v : value Fixed4) : string :=
  match v with
  | VUndefined | VNull => "null"
  | VBool true => "true"
  | VBool false => "false"
  | VNum n => num_toString n
  | VStr s => quoted s
  | VArr items =>
      "[" +:+ String.concat ", " (map json_text items) +:+ "]"
  | VObj props =>
      "{" +:+ String.concat ", "
                (map (fun kv => quoted (fst kv) +:+ ": " +:+ json_text (snd kv)) props)
          +:+ "}"
  end.

(** What [print(json.dumps(payload))] writes. *)
Definition printed (payload : list (value Fixed4)) : string :=
  json_text (VArr payload) +:+ String LF "".

(** The [SyntaxError] of [JSON.parse] on a text whose first character
    starts no JSON value. *)
Definition syntax_error (text : string) : Error.t :=
  Error.mk match text with
           | EmptyString => "Unexpected end of JSON input"
           | String c _ => "Unexpected token " +:+ String c " in JSON at position 0"
           end.

(** [JSON.parse] on the texts of [known] payloads; it rejects the rest. *)
Definition reads_back (known : list (list (value Fixed4))) (text : string)
  : Completion (value Fixed4) :=
  match find (fun payload => String.eqb text (printed payload)) known with
  | Some payload => Normal (VArr payload)
  | None => Throw (syntax_error text)
  end.

(** The wording of V8 for the engine's type errors. *)
Definition v8_typeError (f : Fault) : Error.t :=
  Error.mk match f with
           | ReadOfNullish p => "Cannot read properties of null (reading '" +:+ p +:+ "')"
           | NotAFunction c => c +:+ " is not a function"
           | NotPrimitive => "Cannot convert object to primitive value"
           end.

Definition sample_world (outcome : ExecOutcome) (unlink : option Error.t)
    (known : list (list (value Fixed4))) : World Fixed4 :=
  {| TEMP_DIR := "/tmp";
     path_join := fun dir name => dir +:+ "/" +:+ name;
     uuidv4 := "1b9d6bcd-bbfd-4b2d-9b5d-ab8dfbbd4bed";
     writeFileSync_throws := None;
     exec_outcome := outcome;
     process_files := fun fs => fs;
     unlinkSync_throws := unlink;
     JSON_parse := reads_back known;
     typeError := v8_typeError |}.

Definition sample_path : string := "/tmp/1b9d6bcd-bbfd-4b2d-9b5d-ab8dfbbd4bed.py".

Definition sample_command : string := "python " +:+ quoted sample_path.

(** A correct submission. *)
Definition correct_code : string :=
  join_lines
    [ "def two_sum(nums, target):";
      "    seen = {}";
      "    for i, n in enumerate(nums):";
      "        if target - n in seen:";
      "            return [seen[target - n], i]";
      "        seen[n] = i" ].

Definition correct_calls (case : nat) : CallOutcome (num := Fixed4) :=
  match case with
  | 2 => Returns "[1, 2]" (seconds 1)
  | _ => Returns "[0, 1]" (seconds 1)
  end.

(** A submission that answers the first case and raises [IndexError] in
    the second. *)
Definition raising_code : string :=
  join_lines
    [ "def two_sum(nums, target):";
      "    if target == 6:";
      "        return nums[target]";
      "    return [0, 1]" ].

Definition raising_calls (case : nat) : CallOutcome (num := Fixed4) :=
  match case with
  | 1 => Returns "[0, 1]" (seconds 1)
  | _ => Raises "list index out of range"
  end.

(** A submission that raises an exception without a text in the first
    case. *)
Definition silent_code : string :=
  join_lines
    [ "def two_sum(nums, target):";
      "    raise ValueError" ].

Definition silent_calls (case : nat) : CallOutcome (num := Fixed4) := Raises "".

(** A submission with an empty body. *)
Definition empty_code : string :=
  join_lines
    [ "def two_sum(nums, target):";
      "    # TODO" ].

Definition empty_calls (case : nat) : CallOutcome (num := Fixed4) :=
  Returns "None" (seconds 0).

(** A submission whose body stands on the definition line. *)
Definition one_line_code : string :=
  "def two_sum(nums, target): return [0, 1]".

Definition ENOENT : Error.t :=
  Error.mk ("ENOENT: no such file or directory, unlink '" +:+ sample_path +:+ "'").

Definition command_failed (stderr : string) : Error.t :=
  Error.mk ("Command failed: " +:+ sample_command +:+ String LF stderr).

Definition indentation_error : string :=
  join_lines
    [ "  File " +:+ quoted sample_path +:+ ", line 2";
      "    pass  # Added automatically";
      "IndentationError: unexpected indent";
      "" ].

(** A submission that names its function differently. *)
Definition misnamed_code : string :=
  join_lines
    [ "class Solution:";
      "    def twoSum(self, nums, target):";
      "        return [0, 1]" ].

(** A submission whose only definition extends the required name. *)
Definition helper_code : string :=
  join_lines
    [ "import sys";
      "  def two_sum_helper(nums):";
      "      return nums" ].

(** The interpreter process printed what the driver computes from [calls],
    and [JSON.parse] reads it back. *)
Definition driver_world (calls : nat -> CallOutcome (num := Fixed4))
    (unlink : option Error.t) : World Fixed4 :=
  sample_world (ExecCallback None (printed (run_tests calls)) "") unlink
    [run_tests calls].

(** The interpreter process ended with an error and printed nothing. *)
Definition crash_world (stderr : string) (unlink : option Error.t) : World Fixed4 :=
  sample_world (ExecCallback (Some (command_failed stderr)) "" stderr) unlink [].

(** The verdict of a run in which all three cases pass, each in 0.0001 s. *)
Definition passing_verdict : Verdict Fixed4 :=
  {| success := true;
     output := Some "All test cases passed!";
     testResults := Some (VArr (run_tests correct_calls));
     executionTime := Some "0.0003s";
     message := None;
     error := None |}.

(** [s.includes(sub)] *)
Fixpoint includes (s sub : string) : bool :=
  String.prefix sub s
  || match s with
     | EmptyString => false
     | String _ rest => includes rest sub
     end.

Definition EPERM : Error.t :=
  Error.mk ("EPERM: operation not permitted, unlink '" +:+ sample_path +:+ "'").

(** A correct submission that first removes the file it is run from. *)
Definition self_deleting_code : string :=
  join_lines
    [ "import os";
      "os.remove(__file__)";
      "def two_sum(nums, target):";
      "    for i in range(len(nums)):";
      "        for j in range(i + 1, len(nums)):";
      "            if nums[i] + nums[j] == target:";
      "                return [i, j]" ].

(** A submission that fails when the module is loaded. *)
Definition import_error_code : string :=
  join_lines
    [ "import numpy_for_two_sum";
      "def two_sum(nums, target):";
      "    return [0, 1]" ].

Definition import_error : string :=
  join_lines
    [ "Traceback (most recent call last):";
      "  File " +:+ quoted sample_path +:+ ", line 1, in <module>";
      "    import numpy_for_two_sum";
      "ModuleNotFoundError: No module named 'numpy_for_two_sum'";
      "" ].

(** The host has no [python] command. *)
Definition not_found : string :=
  join_lines [ "/bin/sh: 1: python: not found"; "" ].

(** A submission that prints before the driver does. *)
Definition chatty_code : string :=
  join_lines
    [ "print('starting')";
      "def two_sum(nums, target):";
      "    return [0, 1]" ].

Definition chatty_output : string :=
  join_lines [ "starting"; "" ] +:+ printed (run_tests correct_calls).

(** The process printed [stdout] and ended cleanly. *)
Definition clean_world (stdout : string) (unlink : option Error.t) : World Fixed4 :=
  sample_world (ExecCallback None stdout "") unlink [run_tests correct_calls].

(** The same run when the submission first removes the file it is run
    from: the process deletes the temporary file, and [unlinkSync] then
    finds none. *)
Definition removes_own_file (w : World Fixed4) : World Fixed4 :=
  {| TEMP_DIR := TEMP_DIR w;
     path_join := path_join w;
     uuidv4 := uuidv4 w;
     writeFileSync_throws := writeFileSync_throws w;
     exec_outcome := exec_outcome w;
     process_files := delete (temp_file w);
     unlinkSync_throws := Some ENOENT;
     JSON_parse := JSON_parse w;
     typeError := typeError w |}.

(** The run of [self_deleting_code]: three passing outcomes are printed. *)
Definition self_deleting_world : World Fixed4 :=
  removes_own_file (driver_world correct_calls None).

(** A submission that removes its file and gives up with a text on
    stderr and a non-zero status. *)
Definition giving_up_code : string :=
  join_lines
    [ "import os, sys";
      "os.remove(__file__)";
      "sys.exit('no solution')";
      "def two_sum(nums, target):";
      "    return [0, 1]" ].

Definition giving_up_stderr : string := join_lines [ "no solution"; "" ].

Definition giving_up_world : World Fixed4 :=
  removes_own_file (crash_world giving_up_stderr None).

(** A submission that removes its file and prints before the driver
    does. *)
Definition chatty_self_deleting_code : string :=
  join_lines
    [ "import os";
      "os.remove(__file__)";
      "print('starting')";
      "def two_sum(nums, target):";
      "    return [0, 1]" ].

Definition chatty_self_deleting_world : World Fixed4 :=
  removes_own_file (clean_world chatty_output None).

(** The verdict of the run of [silent_code]. *)
Definition silent_verdict : Verdict Fixed4 :=
  {| success := false;
     output := Some "Some test cases failed.";
     testResults := Some (VArr [error_record ""]);
     executionTime := Some "0.0000s";
     message := None;
     error := None |}.

(** The run of [import_error_code] on a host where removing the temporary
    file is refused. *)
Definition masking_world : World Fixed4 := crash_world import_error (Some EPERM).

(** The verdict of the run of [empty_code]: three failed cases and the
    message of the validation. *)
Definition empty_verdict : Verdict Fixed4 :=
  {| success := false;
     output := Some "Some test cases failed.";
     testResults := Some (VArr (run_tests empty_calls));
     executionTime := Some "0.0000s";
     message := Some EMPTY_BODY_MESSAGE;
     error := None |}.

(** A submission that answers every case with the first two indices. *)
Definition constant_code : string :=
  join_lines
    [ "def two_sum(nums, target):";
      "    return [0, 1]" ].

Definition constant_calls (case : nat) : CallOutcome (num := Fixed4) :=
  Returns "[0, 1]" (seconds 1).

(** ** More words for the statements *)

(** A text without a line break. *)
Fixpoint no_LF (s : string) : bool :=
  match s with
  | EmptyString => true
  | String c rest => negb (Ascii.eqb c LF) && no_LF rest
  end.

(** The run leaves its temporary file behind: [exec] threw, so the callback
    with the removal never ran, or the removal itself threw. *)
Definition leaks {num : Type} (w : World num) : bool :=
  match exec_outcome w with
  | ExecThrows _ => true
  | ExecCallback _ _ _ =>
      match unlinkSync_throws w with Some _ => true | None => false end
  | ExecPending => true
  end.

(** A parsed value that is neither an array nor an object. *)
Definition is_scalar {num : Type} (v : value num) : bool :=
  match v with
  | VNull | VBool _ | VNum _ | VStr _ => true
  | _ => false
  end.

Definition is_exec (a : Action) : bool :=
  match a with Exec _ => true | _ => false end.

(** ** The HTTP layer of [app.js] around the pipeline

    The routes that grade, store and list submissions, and the middleware
    in front of them.  What [jsonwebtoken] and [sqlite3] decide is read from
    a [Site] record; the [submissions] table is a list of rows in insertion
    order and the counter of its [AUTOINCREMENT] key.  [db.run] and
    [db.all] report a failure through the [err] of their callback. *)

(** [s.split(sep)] for a separator of one character. *)
Fixpoint split_at (sep : ascii) (s : string) : list string :=
  match s with
  | EmptyString => [EmptyString]
  | String c rest =>
      if Ascii.eqb c sep then EmptyString :: split_at sep rest
      else match split_at sep rest with
           | l :: ls => String c l :: ls
           | [] => [String c EmptyString]
           end
  end.

(** A text without the character [sep]. *)
Fixpoint lacks (sep : ascii) (s : string) : bool :=
  match s with
  | EmptyString => true
  | String c rest => negb (Ascii.eqb c sep) && lacks sep rest
  end.

(** The payload of a token the server signed (lines 99 and 126). *)
Module Token.
Record payload : Type := mk { id : nat; username : string }.
End Token.

(** A row of the [submissions] table (lines 37-45); [created_at] counts
    the seconds of [CURRENT_TIMESTAMP], whose text orders the same way. *)
Record Submission : Type := mkSubmission {
  sub_id : nat;
  sub_user_id : nat;
  sub_problem_id : option nat;
  sub_code : string;
  sub_status : string;
  sub_created_at : nat
}.

Record Db : Type := mkDb {
  submissions : list Submission;
  lastID : nat
}.

Record Site : Type := {
  jwt_verify : string -> option Token.payload;
    (* [jwt.verify(token, secret, callback)]: the payload, [None] for [err] *)
  db_run_error : option Error.t;       (* the [err] of [db.run]'s callback *)
  db_all_error : option Error.t;       (* the [err] of [db.all]'s callback *)
  CURRENT_TIMESTAMP : nat;
  toISOString : string                 (* [new Date().toISOString()] *)
}.

(** [INSERT INTO submissions (user_id, problem_id, code, status)]: the row
    gets the next key and the current time. *)
Definition insert_submission (site : Site) (user_id : nat) (problem_id : option nat)
    (code status : string) (db : Db) : Db :=
  {| submissions :=
       submissions db
       ++ [ {| sub_id := S (lastID db);
               sub_user_id := user_id;
               sub_problem_id := problem_id;
               sub_code := code;
               sub_status := status;
               sub_created_at := CURRENT_TIMESTAMP site |} ];
     lastID := S (lastID db) |}.

(** [ORDER BY created_at DESC]: a row stands before the rows created no
    later than it. *)
Definition newer_first (a b : Submission) : Prop :=
  sub_created_at b <= sub_created_at a.

#[global] Instance newer_first_dec : RelDecision newer_first :=
  fun a b => decide (sub_created_at b <= sub_created_at a).

(** [SELECT * FROM submissions WHERE user_id = ? ORDER BY created_at DESC].
    SQL leaves the order of rows created at the same time open; the
    statements about the result use only that it is sorted and holds the
    rows of the user. *)
Definition select_submissions (user_id : nat) (db : Db) : list Submission :=
  merge_sort newer_first
    (filter (fun row => sub_user_id row = user_id) (submissions db)).

(** The keys of the table are distinct and none is past the counter. *)
Definition db_wf (db : Db) : Prop :=
  NoDup (sub_id <$> submissions db) /\
  Forall (fun row => sub_id row <= lastID db) (submissions db).

(** *** [authenticateToken] *)

Inductive AuthOutcome : Type :=
| Refused (statusCode : nat) (error : string)   (* [res.status(..).json({ error })] *)
| Next (user : Token.payload).                  (* [req.user = user; next()] *)

(** [authHeader && authHeader.split(' ')[1]], [None] standing for
    [undefined]. *)
Definition token_of (authHeader : option string) : option string :=
  match authHeader with
  | None => None
  | Some header =>
      if isEmpty header then Some header
      else match split_at " " header with
           | _ :: token :: _ => Some token
           | _ => None
           end
  end.

Definition authenticateToken (site : Site) (authHeader : option string) : AuthOutcome :=
  match token_of authHeader with
  | None => Refused 401 "Access denied"
  | Some token =>
      if isEmpty token then Refused 401 "Access denied"
      else match jwt_verify site token with
           | None => Refused 403 "Invalid token"
           | Some user => Next user
           end
  end.

(** *** The routes *)

(** A code that is a text. *)
Definition is_text {num : Type} (v : value num) : bool :=
  match v with VStr _ => true | _ => false end.

(** ** [JSON.stringify] *)

Definition hex_digit (n : N) : ascii :=
  ascii_of_N (if (n <? 10)%N then 48 + n else 87 + n).

Definition BACKSLASH : ascii := "092"%char.

Definition escaped (c : ascii) : string := String BACKSLASH (String c "").

(** One byte of a text inside a JSON string literal. *)
Definition json_escape (c : ascii) : string :=
  let n := code c in
  if (n =? 34)%N then escaped DQ
  else if (n =? 92)%N then escaped BACKSLASH
  else if (n =? 8)%N then escaped "b"
  else if (n =? 9)%N then escaped "t"
  else if (n =? 10)%N then escaped "n"
  else if (n =? 12)%N then escaped "f"
  else if (n =? 13)%N then escaped "r"
  else if (n <? 32)%N then
    String BACKSLASH
      ("u00" +:+ String (hex_digit (n / 16)) (String (hex_digit (n mod 16)) ""))
  else String c "".

Fixpoint json_escaped (s : string) : string :=
  match s with
  | EmptyString => EmptyString
  | String c rest => json_escape c +:+ json_escaped rest
  end.

(** QuoteJSONString *)
Definition json_quote (s : string) : string := quoted (json_escaped s).

Section Stringify.

Context {num : Type} `{JsNumber num}.

(** [JSON.stringify(v)] without indentation; [None] stands for the result
    [undefined].  An element that has no text is written [null] in an
    array and left out of an object. *)
Fixpoint JSON_stringify (v : value num) : option string :=
  match v with
  | VUndefined => None
  | VNull => Some "null"
  | VBool true => Some "true"
  | VBool false => Some "false"
  | VNum n => Some (if num_isFinite n then num_toString n else "null")
  | VStr s => Some (json_quote s)
  | VArr items =>
      Some ("[" +:+ String.concat ","
                      (map (fun x => default "null" (JSON_stringify x)) items)
                +:+ "]")
  | VObj props =>
      Some ("{" +:+ String.concat ","
                      (omap (fun kv =>
                               text ← JSON_stringify (snd kv);
                               Some (json_quote (fst kv) +:+ ":" +:+ text))
                            props)
                +:+ "}")
  end.

(** The properties of a [Verdict] object, in the order in which
    [executeCode] and [runCode] write them. *)
Definition verdict_props (v : Verdict num) : list (string * value num) :=
  [("success", VBool (success v))]
  ++ from_option (fun t => [("error", t)]) [] (error v)
  ++ from_option (fun t => [("output", VStr t)]) [] (output v)
  ++ from_option (fun t => [("testResults", t)]) [] (testResults v)
  ++ from_option (fun t => [("executionTime", VStr t)]) [] (executionTime v)
  ++ from_option (fun t => [("message", VStr t)]) [] (message v).

(** The argument of the [console.log] of line 190:
    [JSON.stringify(results).substring(0, 100) + '...'].  The text goes to
    the console only; what matters to the handler is that reading
    [substring] of [undefined] throws. *)
Definition results_log (w : World num) (results : value num) : Completion unit :=
  match JSON_stringify results with
  | Some _ => Normal ()
  | None => Throw (typeError w (ReadOfNullish "substring"))
  end.

End Stringify.

Section Routes.

Context {num : Type} `{JsNumber num}.

(** The bodies the three routes send. *)
Inductive Body : Type :=
| ErrorBody (error : string)
    (* [{ error }] *)
| CrashBody (error : string)
    (* [{ success: false, error }] *)
| GradedBody (submission_id : nat) (results : Verdict num)
    (* [{ submission_id, ...results }] *)
| CreatedBody (id user_id : nat) (problem_id : option nat)
    (code status created_at : string)
    (* [{ id, user_id, problem_id, code, status, created_at }] *)
| ListBody (rows : list Submission).
    (* [{ submissions }] *)

Inductive Reply : Type :=
| Sent (statusCode : nat) (body : Body)
| Thrown (e : Error.t)
    (* the handler throws before its [try] and sends no reply of its own *)
| Waiting.
    (* the handler stays at an [await] that never completes: no reply *)

(** What serving one request leaves: the reply, the table, the files and
    the calls made to the outside. *)
Record Served : Type := mkServed {
  reply : Reply;
  database : Db;
  disk : gmap string string;
  calls : list Action
}.

Variable w : World num.
Variable site : Site.

(** The handler of [POST /api/run] (lines 175-216), behind the
    middleware. *)
Definition run_handler (user : Token.payload) (code : value num) (db : Db)
    (fs : gmap string string) : Served :=
  if negb (truthy code) then
    mkServed (Sent 400 (ErrorBody "Code is required")) db fs []
  else
    match code with
    | VStr text =>
        let r := runCode w text fs in
        match completion r with
        | Pending => mkServed Waiting db (files r) (actions r)
        | Settled awaited =>
            match results ← awaited;
                  results_log w (VObj (verdict_props results));;
                  Normal results
            with
            | Throw error =>
                mkServed
                  (Sent 500 (CrashBody ("An error occurred while processing your code: "
                                        +:+ Error.message error)))
                  db (files r) (actions r)
            | Normal results =>
                match db_run_error site with
                | Some err =>
                    mkServed (Sent 500 (ErrorBody (Error.message err)))
                             db (files r) (actions r)
                | None =>
                    let db' :=
                      insert_submission site (Token.id user) (Some 1) text
                        (if success results then "passed" else "failed") db in
                    mkServed (Sent 200 (GradedBody (lastID db') results))
                             db' (files r) (actions r)
                end
            end
        end
    | _ =>
        mkServed (Thrown (typeError w (NotAFunction "code.substring")))
                 db fs []
    end.

(** [app.post('/api/run', authenticateToken, ...)] *)
Definition api_run (authHeader : option string) (code : value num) (db : Db)
    (fs : gmap string string) : Served :=
  match authenticateToken site authHeader with
  | Refused statusCode error => mkServed (Sent statusCode (ErrorBody error)) db fs []
  | Next user => run_handler user code db fs
  end.

(** The handler of [POST /api/submissions] (lines 133-157) on a body whose
    [problem_id] is a number or absent and whose [code] is a text or
    absent. *)
Definition create_handler (user : Token.payload) (problem_id : option nat)
    (code : option string) (db : Db) : Reply * Db :=
  match code with
  | None => (Sent 400 (ErrorBody "Code is required"), db)
  | Some text =>
      if isEmpty text then (Sent 400 (ErrorBody "Code is required"), db)
      else
        match db_run_error site with
        | Some err => (Sent 500 (ErrorBody (Error.message err)), db)
        | None =>
            let stored :=
              match problem_id with
              | Some 0 | None => None
              | Some n => Some n
              end in
            let db' := insert_submission site (Token.id user) stored text "submitted" db in
            (Sent 201 (CreatedBody (lastID db') (Token.id user) problem_id text
                                   "submitted" (toISOString site)),
             db')
        end
  end.

(** The handler of [GET /api/submissions] (lines 160-171). *)
Definition list_handler (user : Token.payload) (db : Db) : Reply :=
  match db_all_error site with
  | Some err => Sent 500 (ErrorBody (Error.message err))
  | None => Sent 200 (ListBody (select_submissions (Token.id user) db))
  end.


(** [app.get('/api/submissions', authenticateToken, ...)] *)
Definition api_list (authHeader : option string) (db : Db) : Reply :=
  match authenticateToken site authHeader with
  | Refused statusCode error => Sent statusCode (ErrorBody error)
  | Next user => list_handler user db
  end.

(** [app.post('/api/submissions', authenticateToken, ...)] *)
Definition api_create (authHeader : option string) (problem_id : option nat)
    (code : option string) (db : Db) : Reply * Db :=
  match authenticateToken site authHeader with
  | Refused statusCode error => (Sent statusCode (ErrorBody error), db)
  | Next user => create_handler user problem_id code db
  end.

End Routes.

(** A site for the worked examples: one token is valid, for the user 7. *)
Definition sample_site : Site :=
  {| jwt_verify := fun token =>
       if String.eqb token "good.token" then Some (Token.mk 7 "alice") else None;
     db_run_error := None;
     db_all_error := None;
     CURRENT_TIMESTAMP := 30;
     toISOString := "2025-03-01T10:00:30.000Z" |}.

(** A table with one earlier submission of another user. *)
Definition sample_db : Db :=
  {| submissions :=
       [ {| sub_id := 1; sub_user_id := 3; sub_problem_id := None;
            sub_code := "pass"; sub_status := "submitted"; sub_created_at := 10 |} ];
     lastID := 1 |}.

(** A submission that prints an empty list and ends the process before
    the driver runs. *)
Definition early_exit_code : string :=
  join_lines
    [ "import os";
      "print('[]', flush=True)";
      "os._exit(0)";
      "def two_sum(nums, target):";
      "    return []" ].

Definition early_exit_world : World Fixed4 :=
  sample_world (ExecCallback None (printed []) "") None [[]].

(** A run whose process printed [null]. *)
Definition null_output : string := join_lines [ "null"; "" ].

Definition null_world : World Fixed4 :=
  {| TEMP_DIR := "/tmp";
     path_join := fun dir name => dir +:+ "/" +:+ name;
     uuidv4 := "1b9d6bcd-bbfd-4b2d-9b5d-ab8dfbbd4bed";
     writeFileSync_throws := None;
     exec_outcome := ExecCallback None null_output "";
     process_files := fun fs => fs;
     unlinkSync_throws := None;
     JSON_parse := fun text =>
       if String.eqb text null_output then Normal VNull else Throw (syntax_error text);
     typeError := v8_typeError |}.

(** A run in which [exec] itself throws. *)
Definition no_spawn_world : World Fixed4 :=
  sample_world (ExecThrows (Error.mk "spawn EAGAIN")) None [].

(** A submission that behaves like [raising_code] in the first two cases
    and would take five seconds in the third. *)
Definition other_third_calls (case : nat) : CallOutcome (num := Fixed4) :=
  match case with
  | 3 => Returns "[0, 1]" (seconds 50000)
  | _ => raising_calls case
  end.

(** ** Processes that never end, names that only begin alike *)

(** The interpreter process is launched and never ends. *)
Definition never_ends {num : Type} (w : World num) (code : string) : bool :=
  match validateCode code, writeFileSync_throws w, exec_outcome w with
  | Valid _ _, None, ExecPending => true
  | _, _, _ => false
  end.

(** A submission that loops for ever in its first call. *)
Definition looping_code : string :=
  join_lines
    [ "def two_sum(nums, target):";
      "    while True:";
      "        pass" ].

Definition hanging_world : World Fixed4 := sample_world ExecPending None [].

(** A character that continues a Python name: a letter, a digit, the
    underscore, or a byte of a character beyond ASCII. *)
Definition is_name_char (c : ascii) : bool :=
  let n := code c in
  (((48 <=? n) && (n <=? 57)) || ((65 <=? n) && (n <=? 90))
   || ((97 <=? n) && (n <=? 122)) || (n =? 95) || (128 <=? n))%N.

(** [s] without the prefix [p], when it starts with it. *)
Fixpoint strip_prefix (p s : string) : option string :=
  match p, s with
  | EmptyString, _ => Some s
  | String a p', String c s' => if Ascii.eqb a c then strip_prefix p' s' else None
  | String _ _, EmptyString => None
  end.

(** In the words of the specification: the line, ignoring leading white
    space, begins the definition of the function named [two_sum], so the
    name ends where the prefix does. *)
Definition begins_two_sum_definition (line : string) : bool :=
  match strip_prefix "def two_sum" (trimStart line) with
  | Some (String c _) => negb (is_name_char c)
  | Some EmptyString => true
  | None => false
  end.

(** A submission that defines a helper and not the required function;
    the driver's first call raises a [NameError]. *)
Definition helper_only_code : string :=
  join_lines
    [ "def two_sum_helper(nums, target):";
      "    return [0, 1]" ].

Definition undefined_calls (case : nat) : CallOutcome (num := Fixed4) :=
  Raises "name 'two_sum' is not defined".

(** * Properties *)

(** ** Strings and lines *)

Lemma prefix_nil_r (p : string) :
  String.prefix p "" = isEmpty p.
Proof. by destruct p. Qed.

Lemma prefix_nil_l (s : string) : String.prefix "" s = true.
Proof. by destruct s. Qed.

Lemma ends_solid_tail (a : ascii) (p : string) :
  ends_solid (String a p) = true -> isEmpty p = false -> ends_solid p = true.
Proof. by destruct p. Qed.

Lemma is_ws_not_solid (c : ascii) : is_ws c = true -> solid c = false.
Proof. unfold solid. by intros ->. Qed.

Lemma high_not_solid (c : ascii) : (128 <= code c)%N -> solid c = false.
Proof.
  intros Hc. unfold solid. apply andb_false_intro2, N.ltb_ge. lia.
Qed.

Lemma is_ws2_not_solid (c1 c2 : ascii) :
  is_ws2 c1 c2 = true -> solid c1 = false /\ solid c2 = false.
Proof.
  unfold is_ws2. rewrite andb_true_iff, !N.eqb_eq. intros [H1 H2].
  split; apply high_not_solid; lia.
Qed.

Lemma is_ws3_not_solid (c1 c2 c3 : ascii) :
  is_ws3 c1 c2 c3 = true ->
  solid c1 = false /\ solid c2 = false /\ solid c3 = false.
Proof.
  unfold is_ws3.
  rewrite !orb_true_iff, !andb_true_iff, !orb_true_iff, !andb_true_iff,
    !N.eqb_eq, !N.leb_le.
  intros Hc. repeat split; apply high_not_solid; lia.
Qed.

Lemma blank_no_solid (n : nat) (s : string) :
  String.length s <= n -> isEmpty (trimStart s) = true -> no_solid s = true.
Proof.
  revert s. induction n as [|n IH]; intros s Hn; [destruct s; [done|cbn in Hn; lia]|].
  destruct s as [|c1 r1]; [done|]. cbn [trimStart no_solid]. cbn in Hn.
  destruct (is_ws c1) eqn:E1.
  { intros Hr. rewrite (is_ws_not_solid _ E1). apply IH; [lia|done]. }
  destruct r1 as [|c2 r2]; [done|]. cbn [no_solid]. cbn in Hn.
  destruct (is_ws2 c1 c2) eqn:E2.
  { intros Hr. destruct (is_ws2_not_solid _ _ E2) as [-> ->].
    cbn. apply IH; [lia|done]. }
  destruct r2 as [|c3 r3]; [done|]. cbn [no_solid]. cbn in Hn.
  destruct (is_ws3 c1 c2 c3) eqn:E3; [|done].
  intros Hr. destruct (is_ws3_not_solid _ _ _ E3) as (-> & -> & ->).
  cbn. apply IH; [lia|done].
Qed.

Lemma solid_prefix_not_blank (p s : string) :
  ends_solid p = true -> isEmpty p = false -> no_solid s = true ->
  String.prefix p s = false.
Proof.
  revert s. induction p as [|a p IH]; intros s Hp Hne Hs; [done|].
  destruct s as [|c r]; [done|]. cbn [String.prefix].
  destruct (ascii_dec a c) as [->|]; [|done].
  cbn in Hs. apply andb_true_iff in Hs as [Hc Hr].
  destruct p as [|b p'].
  - cbn in Hp. by rewrite Hp in Hc.
  - by apply IH.
Qed.

(** Trimming the end of a text does not change whether it starts with a
    prefix that ends in a visible character. *)
Lemma prefix_trimEnd (p s : string) :
  ends_solid p = true -> String.prefix p (trimEnd s) = String.prefix p s.
Proof.
  revert p. induction s as [|c r IH]; intros p Hp; [done|].
  destruct p as [|a p']; [by rewrite !prefix_nil_l|].
  cbn [trimEnd]. destruct (isEmpty (trimStart (String c r))) eqn:E.
  - rewrite (solid_prefix_not_blank (String a p') (String c r)); try done.
    by apply (blank_no_solid (String.length (String c r))).
  - cbn [String.prefix]. destruct (ascii_dec a c); [|done].
    destruct (isEmpty p') eqn:Ep'.
    + destruct p'; [|done]. by rewrite !prefix_nil_l.
    + apply IH. by apply ends_solid_tail with a.
Qed.

Lemma is_definition_line_begins (line : string) :
  is_definition_line line = begins_definition line.
Proof.
  unfold is_definition_line, begins_definition, startsWith, trim.
  by apply prefix_trimEnd.
Qed.

(** Leading white space is removed whatever follows it. *)
Lemma trimStart_app_blank (n : nat) (indent rest : string) :
  String.length indent <= n -> all_ws indent = true ->
  trimStart (indent +:+ rest) = trimStart rest.
Proof.
  unfold all_ws. revert indent.
  induction n as [|n IH]; intros s Hn; [destruct s; [done|cbn in Hn; lia]|].
  destruct s as [|c1 r1]; [done|]. cbn in Hn.
  change (String c1 r1 +:+ rest) with (String c1 (r1 +:+ rest)).
  cbn [trimStart]. destruct (is_ws c1) eqn:E1.
  { intros Hr. apply IH; [lia|done]. }
  destruct r1 as [|c2 r2]; [done|]. cbn in Hn.
  change (String c2 r2 +:+ rest) with (String c2 (r2 +:+ rest)).
  cbn [trimStart]. destruct (is_ws2 c1 c2) eqn:E2.
  { intros Hr. apply IH; [lia|done]. }
  destruct r2 as [|c3 r3]; [done|]. cbn in Hn.
  change (String c3 r3 +:+ rest) with (String c3 (r3 +:+ rest)).
  cbn [trimStart]. destruct (is_ws3 c1 c2 c3) eqn:E3; [|done].
  intros Hr. apply IH; [lia|done].
Qed.

(** A byte order mark and a no-break space before the definition are
    trimmed like any other white space. *)
Example definition_after_a_byte_order_mark :
  is_definition_line
    (BOM +:+ String "194"%char (String "160"%char "def two_sum(nums, target):"))
  = true.
Proof. reflexivity. Qed.

Lemma split_lines_nonempty (s : string) : split_lines s <> [].
Proof.
  induction s as [|c r IH]; [done|]. cbn.
  destruct (Ascii.eqb c LF); [done|]. by destruct (split_lines r).
Qed.

Lemma join_lines_cons (l : string) (ls : list string) :
  ls <> [] -> join_lines (l :: ls) = l +:+ String LF (join_lines ls).
Proof. by destruct ls. Qed.

(** Joining the lines of a text gives the text back. *)
Lemma join_split_lines (s : string) : join_lines (split_lines s) = s.
Proof.
  induction s as [|c r IH]; [done|]. cbn [split_lines].
  pose proof (split_lines_nonempty r) as Hne.
  destruct (Ascii.eqb c LF) eqn:E.
  - apply Ascii.eqb_eq in E as ->.
    rewrite join_lines_cons by done. by rewrite IH.
  - destruct (split_lines r) as [|l ls]; [done|].
    rewrite <- IH. by destruct ls.
Qed.

(** ** [findIndex] *)

Lemma findIndex_ext {A : Type} (p q : A -> bool) (l : list A) :
  (forall x, p x = q x) -> findIndex p l = findIndex q l.
Proof.
  intros Hpq. induction l as [|x l IH]; [done|].
  cbn. by rewrite Hpq, IH.
Qed.

Lemma findIndex_None {A : Type} (p : A -> bool) (l : list A) :
  findIndex p l = None <-> forall x, x ∈ l -> p x = false.
Proof.
  induction l as [|x l IH]; cbn.
  - split; [|done]. intros _ y Hy. by apply elem_of_nil in Hy.
  - destruct (p x) eqn:Hx.
    + split; [done|]. intros Hall. rewrite Hall in Hx; [done|]. apply list_elem_of_here.
    + rewrite fmap_None, IH. split.
      * intros Hall y Hy. apply elem_of_cons in Hy as [->|Hy]; auto.
      * intros Hall y Hy. apply Hall. by apply list_elem_of_further.
Qed.

Lemma findIndex_None_existsb {A : Type} (p : A -> bool) (l : list A) :
  findIndex p l = None <-> existsb p l = false.
Proof.
  induction l as [|x l IH]; cbn; [done|].
  destruct (p x); cbn; [done|]. by rewrite fmap_None.
Qed.

Lemma findIndex_Some_lookup {A : Type} (p : A -> bool) (l : list A) (i : nat) :
  findIndex p l = Some i ->
  exists x, l !! i = Some x /\ p x = true /\
            forall j y, j < i -> l !! j = Some y -> p y = false.
Proof.
  revert i. induction l as [|x l IH]; intros i; cbn; [done|].
  destruct (p x) eqn:Hx.
  - intros [= <-]. exists x. split_and!; [done..|]. intros j y Hj. lia.
  - intros Hi. apply fmap_Some in Hi as (i' & Hi' & ->).
    destruct (IH i' Hi') as (y & Hy & Hpy & Hbefore).
    exists y. split_and!; [done..|].
    intros [|j] z Hj; cbn; [by intros [= <-]|].
    intros Hz. apply (Hbefore j z); [lia|done].
Qed.

(** ** The body scan *)

(** The loop of lines 32-46 finds an implementation exactly when the
    indented block after the definition holds a statement. *)
Lemma hasImplementation_body (after : list string) :
  hasImplementation after = negb (body_is_empty after).
Proof.
  unfold body_is_empty, function_body.
  induction after as [|raw rest IH]; [done|].
  cbn [hasImplementation take_while]. rewrite IH. unfold is_statement, blank.
  destruct (indented raw) eqn:Hi, (isEmpty (trim raw)) eqn:Hb,
    (startsWith (trim raw) "#") eqn:Hc; cbn; rewrite ?Hi, ?Hb, ?Hc; done.
Qed.

(** ** [validateCode] *)

Lemma validateCode_Invalid (code : string) :
  existsb begins_definition (split_lines code) = false ->
  validateCode code = Invalid NO_FUNCTION_ERROR.
Proof.
  intros Hnone. unfold validateCode.
  rewrite (findIndex_ext _ _ _ is_definition_line_begins).
  apply findIndex_None_existsb in Hnone. by rewrite Hnone.
Qed.

Lemma validateCode_Valid (code : string) :
  existsb begins_definition (split_lines code) = true ->
  exists modifiedCode message, validateCode code = Valid modifiedCode message.
Proof.
  intros Hsome. unfold validateCode.
  rewrite (findIndex_ext _ _ _ is_definition_line_begins).
  destruct (findIndex begins_definition (split_lines code)) as [i|] eqn:Hi.
  - destruct (hasImplementation _); eauto.
  - apply findIndex_None_existsb in Hi. congruence.
Qed.

Lemma validateCode_empty_body (code : string) (i : nat) :
  findIndex begins_definition (split_lines code) = Some i ->
  body_is_empty (drop (S i) (split_lines code)) = true ->
  validateCode code =
    Valid (join_lines (take (S i) (split_lines code)
                       ++ PASS_LINE :: drop (S i) (split_lines code)))
          (Some EMPTY_BODY_MESSAGE).
Proof.
  intros Hi Hempty. unfold validateCode, splice_insert.
  rewrite (findIndex_ext _ _ _ is_definition_line_begins), Hi.
  rewrite Nat.add_1_r, hasImplementation_body, Hempty. done.
Qed.

(** The message of a validation is absent or the fixed, non-empty text. *)
Lemma validateCode_message (code modifiedCode : string) (message : option string) :
  validateCode code = Valid modifiedCode message ->
  attach_message message = message.
Proof.
  unfold validateCode. destruct (findIndex _ _); [|done].
  destruct (hasImplementation _); by intros [= <- <-].
Qed.

(** ** The effectful functions, case by case *)

(** The control operators alone, down to the runs they combine. *)
Ltac unfold_steps :=
  cbv beta iota zeta delta
    [try_catch throw pure mbind mret Eff_bind Eff_ret completion files actions].

Section Runs.

Context {num : Type} `{JsNumber num}.
Variable w : World num.

Lemma executeCode_callback (filePath : string) (message : option string)
    (fs : gmap string string) (error : option Error.t) (stdout stderr : string) :
  exec_outcome w = ExecCallback error stdout stderr ->
  executeCode w filePath message fs =
    match unlinkSync_throws w, error with
    | Some e, _ =>
        mkRun (Normal (cleanup_failure e)) (process_files w fs)
              [Exec (python filePath); Unlink filePath]
    | None, Some e =>
        mkRun (Normal (exit_failure e stderr))
              (delete filePath (process_files w fs))
              [Exec (python filePath); Unlink filePath]
    | None, None =>
        mkRun (Normal match JSON_parse w stdout ≫= verdict_of_results w message with
                      | Normal v => v
                      | Throw e => parse_failure stdout e
                      end)
              (delete filePath (process_files w fs))
              [Exec (python filePath); Unlink filePath; Parse stdout]
    end.
Proof.
  intros Hexec. unfold executeCode, exec, unlinkSync, parse. rewrite Hexec.
  destruct (unlinkSync_throws w); [reflexivity|].
  destruct error; [reflexivity|].
  destruct (JSON_parse w stdout) as [results|]; unfold_steps; [|reflexivity].
  destruct (verdict_of_results w message results) eqn:Hv; cbn; rewrite ?Hv; reflexivity.
Qed.

Lemma runCode_invalid (code error : string) (fs : gmap string string) :
  validateCode code = Invalid error ->
  runCode w code fs = mkRun (Normal (facade_failure (Error.mk error))) fs [].
Proof. intros Hv. unfold runCode, prepareTestFile. by rewrite Hv. Qed.

Lemma runCode_write_throws (code modifiedCode : string) (message : option string)
    (e : Error.t) (fs : gmap string string) :
  validateCode code = Valid modifiedCode message ->
  writeFileSync_throws w = Some e ->
  runCode w code fs =
    mkRun (Normal (facade_failure e)) fs
          [WriteFile (temp_file w) (modifiedCode +:+ DRIVER)].
Proof.
  intros Hv Hw. unfold runCode, prepareTestFile, writeFileSync.
  by rewrite Hv, Hw.
Qed.

Lemma runCode_exec_throws (code modifiedCode : string) (message : option string)
    (e : Error.t) (fs : gmap string string) :
  validateCode code = Valid modifiedCode message ->
  writeFileSync_throws w = None ->
  exec_outcome w = ExecThrows e ->
  runCode w code fs =
    mkRun (Normal (facade_failure e))
          (<[temp_file w := modifiedCode +:+ DRIVER]> fs)
          [WriteFile (temp_file w) (modifiedCode +:+ DRIVER);
           Exec (python (temp_file w))].
Proof.
  intros Hv Hw He. unfold runCode, prepareTestFile, writeFileSync, executeCode, exec.
  by rewrite Hv, Hw, He.
Qed.

Lemma runCode_pending (code modifiedCode : string) (message : option string)
    (fs : gmap string string) :
  validateCode code = Valid modifiedCode message ->
  writeFileSync_throws w = None ->
  exec_outcome w = ExecPending ->
  runCode w code fs =
    mkRun Pending
          (process_files w (<[temp_file w := modifiedCode +:+ DRIVER]> fs))
          [WriteFile (temp_file w) (modifiedCode +:+ DRIVER);
           Exec (python (temp_file w))].
Proof.
  intros Hv Hw He. unfold runCode, prepareTestFile, writeFileSync, executeCode, exec.
  by rewrite Hv, Hw, He.
Qed.

(** Once the harness is written and the process has ended, the verdict of
    [runCode] is the one [executeCode] resolves with. *)
Lemma runCode_callback (code modifiedCode : string) (message : option string)
    (fs : gmap string string) (error : option Error.t) (stdout stderr : string) :
  validateCode code = Valid modifiedCode message ->
  writeFileSync_throws w = None ->
  exec_outcome w = ExecCallback error stdout stderr ->
  runCode w code fs =
    let r := executeCode w (temp_file w) message
               (<[temp_file w := modifiedCode +:+ DRIVER]> fs) in
    mkRun (completion r) (files r)
          (WriteFile (temp_file w) (modifiedCode +:+ DRIVER) :: actions r).
Proof.
  intros Hv Hw He. cbn zeta.
  unfold runCode, prepareTestFile, writeFileSync. rewrite Hv, Hw.
  unfold_steps. cbn [completion files actions].
  fold (temp_file w). rewrite (executeCode_callback _ _ _ _ _ _ He).
  destruct (unlinkSync_throws w); [done|]. by destruct error.
Qed.

End Runs.

(** ** The expressions of the result interpreter *)

Section Interpreter.

Context {num : Type} `{JsNumber num}.
Variable w : World num.

Lemma passed_flag_honoured (result : value num) (b : bool) :
  passed_flag w result = Normal b -> b = honoured result.
Proof.
  destruct result; cbn; try done; by intros [= <-].
Qed.

Lemma passed_flag_outcome (result : value num) :
  is_outcome result = true -> passed_flag w result = Normal (honoured result).
Proof. by destruct result. Qed.

(** The passed flags that count: the boolean [true] and the text
    ["True"], and nothing else. *)
Lemma honoured_spec (result : value num) :
  honoured result = true <->
  exists props,
    result = VObj props /\
    (lookup_prop "passed" props = VBool true \/
     lookup_prop "passed" props = VStr "True").
Proof.
  split.
  - destruct result as [| | | | | |props]; try done. cbn.
    intros Hflag. exists props. split; [done|].
    destruct (lookup_prop "passed" props) as [| |b| |s| |]; try done.
    + left. by rewrite Hflag.
    + right. by apply String.eqb_eq in Hflag as ->.
  - intros (props & -> & [Hflag|Hflag]); cbn; by rewrite Hflag.
Qed.

(** [every] answers [true] only on an array all of whose records carry an
    honoured passed flag. *)
Lemma every_true (results : value num) :
  every w results = Normal true ->
  exists items, results = VArr items /\ forallb honoured items = true.
Proof.
  destruct results as [| | | | |items|]; try done. cbn.
  intros Hall. exists items. split; [done|].
  induction items as [|r items IH]; [done|]. cbn in *.
  destruct (passed_flag w r) as [b|] eqn:Hr; [|done]. cbn in Hall.
  apply passed_flag_honoured in Hr as <-.
  destruct b; [|done]. auto.
Qed.

Lemma every_outcomes (items : list (value num)) :
  forallb is_outcome items = true ->
  every w (VArr items) = Normal (forallb honoured items).
Proof.
  cbn. induction items as [|r items IH]; [done|]. cbn.
  intros [Hr Hitems]%andb_true_iff.
  rewrite (passed_flag_outcome _ Hr). cbn.
  destruct (honoured r); cbn; auto.
Qed.

Lemma add_time_outcome (acc : num) (result : value num) :
  is_outcome result = true ->
  add_time w (VNum acc) result = Normal (VNum (num_add acc (time_of result))).
Proof.
  destruct result as [| | | | | |props]; try done. cbn.
  destruct (lookup_prop "execution_time" props); try done. cbn.
  by destruct (num_truthy n).
Qed.

Lemma reduce_outcomes (items : list (value num)) :
  forallb is_outcome items = true ->
  reduce w (VArr items) = Normal (VNum (total_time items)).
Proof.
  unfold total_time. cbn. generalize (zero (num := num)) as acc.
  induction items as [|r items IH]; intros acc; [done|]. cbn.
  intros [Hr Hitems]%andb_true_iff.
  rewrite (add_time_outcome _ _ Hr). cbn. auto.
Qed.

Lemma single_error_outcomes (items : list (value num)) :
  forallb is_outcome items = true ->
  is_error_payload items = false ->
  single_error w (VArr items) = Normal None.
Proof.
  destruct items as [|r [|r' items]]; try done.
  destruct r; try done. cbn. intros _ ->. done.
Qed.

(** A verdict built from parsed results either reports an error and
    nothing else, or reports the results without an error. *)
Lemma verdict_of_results_shape (message : option string) (results : value num)
    (v : Verdict num) :
  verdict_of_results w message results = Normal v ->
  (exists e, v = failure e) \/
  (exists allPassed totalTime,
     every w results = Normal allPassed /\
     v = {| success := allPassed;
            output := Some (if allPassed then "All test cases passed!"
                            else "Some test cases failed.");
            testResults := Some results;
            executionTime := Some (totalTime +:+ "s");
            message := attach_message message;
            error := None |}).
Proof.
  unfold verdict_of_results.
  destruct (single_error w results) as [[e|]|]; cbn; try done.
  - intros [= <-]. left. by exists e.
  - destruct (every w results) as [allPassed|]; cbn; [|done].
    destruct (reduce w results) as [total|]; cbn; [|done].
    destruct (toFixed w total) as [totalTime|]; cbn; [|done].
    intros [= <-]. right. by exists allPassed, totalTime.
Qed.

End Interpreter.

(** ** Every run, by cases *)

(** Splits a goal about [runCode w code fs] into the nine ways a run can
    go, rewriting the run to its closed form in each. *)
Ltac run_cases w code fs :=
  let Hv := fresh "Hvalid" in
  let Hw := fresh "Hwrite" in
  let He := fresh "Hexec" in
  let Hu := fresh "Hunlink" in
  let Hp := fresh "Hparse" in
  let Hr := fresh "Hresults" in
  destruct (validateCode code) as [?|? message] eqn:Hv;
  [ rewrite (runCode_invalid w _ _ fs Hv)
  | destruct (writeFileSync_throws w) eqn:Hw;
    [ rewrite (runCode_write_throws w _ _ _ _ fs Hv Hw)
    | destruct (exec_outcome w) as [?|error stdout ?|] eqn:He;
      [ rewrite (runCode_exec_throws w _ _ _ _ fs Hv Hw He)
      | rewrite (runCode_callback w _ _ _ fs _ _ _ Hv Hw He),
                (executeCode_callback w _ _ _ _ _ _ He);
        destruct (unlinkSync_throws w) eqn:Hu;
        [ | destruct error;
            [ | destruct (JSON_parse w stdout) as [results|] eqn:Hp;
                [ cbn; destruct (verdict_of_results w message results) eqn:Hr | ] ] ]
      | rewrite (runCode_pending w _ _ _ fs Hv Hw He) ] ] ];
  cbn.

Section EveryRun.

Context {num : Type} `{JsNumber num}.
Variable w : World num.

(** A run stays pending exactly when its process never ends.  Otherwise
    it returns a verdict, which is a bare failure or comes out of
    [verdict_of_results] with the message of the validation. *)
Lemma runCode_verdict (code : string) (fs : gmap string string) :
  (never_ends w code = true /\ completion (runCode w code fs) = Pending) \/
  (never_ends w code = false /\
   exists v,
     completion (runCode w code fs) = Normal v /\
     ((exists e, v = failure e) \/
      exists modifiedCode message results,
        validateCode code = Valid modifiedCode message /\
        verdict_of_results w message results = Normal v)).
Proof.
  unfold never_ends.
  run_cases w code fs; try (by left);
    right; (split; [done|]); eexists; (split; [done|]);
    try (left; by eexists).
  right. by do 3 eexists.
Qed.

(** The verdict of a run that returns one. *)
Lemma runCode_returned (code : string) (fs : gmap string string)
    (v : Verdict num) :
  completion (runCode w code fs) = Normal v ->
  (exists e, v = failure e) \/
  exists modifiedCode message results,
    validateCode code = Valid modifiedCode message /\
    verdict_of_results w message results = Normal v.
Proof.
  intros Hrun.
  destruct (runCode_verdict code fs) as [[_ Hp]|(_ & v' & Hrun' & Hshape)].
  - by rewrite Hrun in Hp.
  - rewrite Hrun in Hrun'. by injection Hrun' as <-.
Qed.

End EveryRun.

(** ** The claims *)

Lemma begins_definition_prefix (indent rest : string) :
  all_ws indent = true ->
  begins_definition (indent +:+ "def two_sum" +:+ rest) = true.
Proof.
  intros Hindent. unfold begins_definition, startsWith.
  rewrite (trimStart_app_blank (String.length indent)); [|lia|done].
  cbn. apply prefix_nil_l.
Qed.

(** C10. [validateCode] accepts every submission with a line that, after
    its leading white space, starts with the characters [def two_sum],
    whatever follows them on the line: a longer function name or another
    parameter list pass as well. *)
Theorem validateCode_checks_only_the_prefix (code line indent rest : string) :
  line ∈ split_lines code ->
  line = indent +:+ "def two_sum" +:+ rest ->
  all_ws indent = true ->
  exists modifiedCode message, validateCode code = Valid modifiedCode message.
Proof.
  intros Hline -> Hindent. apply validateCode_Valid.
  apply existsb_exists. exists (indent +:+ "def two_sum" +:+ rest).
  split; [by apply list_elem_of_In|]. by apply begins_definition_prefix.
Qed.

Lemma validateCode_checks_only_the_prefix_witness :
  "  def two_sum_helper(nums):" ∈ split_lines helper_code /\
  "  def two_sum_helper(nums):" = "  " +:+ "def two_sum" +:+ "_helper(nums):" /\
  all_ws "  " = true /\
  exists modifiedCode message, validateCode helper_code = Valid modifiedCode message.
Proof.
  assert (Hline : "  def two_sum_helper(nums):" ∈ split_lines helper_code)
    by (vm_compute; apply list_elem_of_further, list_elem_of_here).
  split_and!; [exact Hline | reflexivity | reflexivity |].
  exact (validateCode_checks_only_the_prefix helper_code _ "  " "_helper(nums):"
           Hline eq_refl eq_refl).
Defined.

Section Claims.

Context {num : Type} `{JsNumber num}.
Variable w : World num.

(** C1, as the code has it.  Unless the interpreter process is launched
    and never ends, [runCode] completes normally with a verdict: no
    exception escapes and the promise is not rejected.  When a stage fails
    internally (validation, writing the temporary file, launching the
    process, cleanup, parsing the output), the verdict has
    [success = false] and an error text. *)
Theorem runCode_returns_a_verdict_once_the_process_ends (code : string)
    (fs : gmap string string) :
  never_ends w code = false ->
  exists v : Verdict num,
    completion (runCode w code fs) = Normal v /\
    (is_Some (failing_stage w code) ->
     success v = false /\ exists description, error v = Some (VStr description)).
Proof.
  unfold failing_stage, never_ends.
  run_cases w code fs; rewrite ?Hparse; cbn; rewrite ?Hresults;
    intros Hends; try done;
    eexists; (split; [reflexivity|]); intros Hstage;
    try (split; [reflexivity | by eexists]).
  by destruct Hstage.
Qed.

(** C2, as the code has it.  A submission none of whose lines starts,
    after its leading white space, with the characters [def two_sum] gets
    a verdict with [success = false] whose error is the validation message
    behind the prefix of the facade; the run writes no file and launches
    no process. *)
Theorem missing_definition_is_rejected_without_launch (code : string)
    (fs : gmap string string) :
  existsb begins_definition (split_lines code) = false ->
  runCode w code fs =
    mkRun (Normal (failure (VStr ("Failed to execute code: " +:+ NO_FUNCTION_ERROR))))
          fs [].
Proof.
  intros Hnone. apply runCode_invalid. by apply validateCode_Invalid.
Qed.

(** C9. A verdict of [runCode] with [success = true] carries the parsed
    results, every record of which has an honoured passed flag, the output
    ["All test cases passed!"], an execution time and no error; a verdict
    with an error has [success = false]. *)
Theorem successful_verdict_shape (code : string) (fs : gmap string string)
    (v : Verdict num) :
  completion (runCode w code fs) = Normal v ->
  (success v = true ->
   exists items time,
     testResults v = Some (VArr items) /\
     forallb honoured items = true /\
     output v = Some "All test cases passed!" /\
     executionTime v = Some time /\
     error v = None) /\
  (is_Some (error v) -> success v = false).
Proof.
  intros Hrun.
  destruct (runCode_returned w code fs v Hrun) as [[e ->]|(modifiedCode & message & results & _ & Hv)].
  { split; [done|]. by intros _. }
  apply verdict_of_results_shape in Hv
    as [[e ->]|(allPassed & totalTime & Hevery & ->)]; cbn.
  { split; [done|]. by intros _. }
  split; [|by intros [? [=]]].
  intros ->. apply every_true in Hevery as (items & -> & Hitems).
  by exists items, (totalTime +:+ "s").
Qed.

End Claims.

Lemma missing_definition_is_rejected_witness :
  existsb begins_definition (split_lines misnamed_code) = false /\
  runCode (driver_world correct_calls None) misnamed_code ∅ =
    mkRun (Normal (failure (VStr ("Failed to execute code: " +:+ NO_FUNCTION_ERROR))))
          ∅ [].
Proof.
  split; [reflexivity|].
  exact (missing_definition_is_rejected_without_launch
           (driver_world correct_calls None) misnamed_code ∅ eq_refl).
Defined.

Lemma successful_verdict_witness :
  completion (runCode (driver_world correct_calls None) correct_code ∅)
    = Normal passing_verdict /\
  (exists items time,
     testResults passing_verdict = Some (VArr items) /\
     forallb honoured items = true /\
     output passing_verdict = Some "All test cases passed!" /\
     executionTime passing_verdict = Some time /\
     error passing_verdict = None).
Proof.
  assert (Hrun : completion (runCode (driver_world correct_calls None) correct_code ∅)
                 = Normal passing_verdict) by (vm_compute; reflexivity).
  split; [exact Hrun|].
  exact (proj1 (successful_verdict_shape (driver_world correct_calls None)
                  correct_code ∅ passing_verdict Hrun) eq_refl).
Defined.

Lemma runCode_returns_a_verdict_witness :
  never_ends (driver_world correct_calls None) misnamed_code = false /\
  exists v : Verdict Fixed4,
    completion (runCode (driver_world correct_calls None) misnamed_code ∅) = Normal v /\
    (is_Some (failing_stage (driver_world correct_calls None) misnamed_code) ->
     success v = false /\ exists description, error v = Some (VStr description)).
Proof.
  split; [reflexivity|].
  exact (runCode_returns_a_verdict_once_the_process_ends
           (driver_world correct_calls None) misnamed_code ∅ eq_refl).
Defined.

(** C1 as stated fails: the first call of [looping_code] never returns, so
    the process never ends, the callback of [exec] is never invoked and
    [runCode] returns nothing; the temporary file is written and the
    process launched. *)
Lemma looping_submission_gets_no_verdict :
  never_ends hanging_world looping_code = true /\
  completion (runCode hanging_world looping_code ∅) = Pending /\
  actions (runCode hanging_world looping_code ∅) =
    [WriteFile sample_path (looping_code +:+ DRIVER); Exec sample_command].
Proof. split_and!; vm_compute; reflexivity. Qed.

(** A line that begins the definition of [two_sum] starts with the
    characters the validator looks for; the converse fails. *)
Lemma strip_prefix_prefix (p s rest : string) :
  strip_prefix p s = Some rest -> String.prefix p s = true.
Proof.
  revert s. induction p as [|a p IH]; intros [|c s]; cbn; try done.
  destruct (Ascii.eqb_spec a c) as [->|]; [|done].
  intros Hrest. destruct (ascii_dec c c); [by eapply IH|done].
Qed.

Lemma begins_two_sum_definition_prefix (line : string) :
  begins_two_sum_definition line = true -> begins_definition line = true.
Proof.
  unfold begins_two_sum_definition, begins_definition, startsWith.
  destruct (strip_prefix _ _) eqn:Hrest; [|done].
  intros _. by eapply strip_prefix_prefix.
Qed.

(** C2 as stated fails: no line of [helper_only_code] begins the
    definition of [two_sum], yet the submission passes the validator, the
    harness is written and the interpreter launched; the error of the
    verdict is the driver's [NameError], not the validation message. *)
Lemma helper_definition_is_launched :
  existsb begins_two_sum_definition (split_lines helper_only_code) = false /\
  validateCode helper_only_code = Valid helper_only_code None /\
  completion (runCode (driver_world undefined_calls None) helper_only_code ∅)
    = Normal (failure (VStr "name 'two_sum' is not defined")) /\
  actions (runCode (driver_world undefined_calls None) helper_only_code ∅) =
    [WriteFile sample_path (helper_only_code +:+ DRIVER);
     Exec sample_command;
     Unlink sample_path;
     Parse (printed (run_tests undefined_calls))].
Proof. split_and!; vm_compute; reflexivity. Qed.
(** ** The driver *)

Section DriverFacts.

Context {num : Type} `{JsNumber num}.

(** An exception in the first case leaves the error record alone in the
    list. *)
Lemma run_tests_first_case_raises (two_sum : nat -> CallOutcome) (text : string) :
  two_sum 1 = Raises text -> run_tests two_sum = [error_record text].
Proof. intros Hfirst. unfold run_tests. cbn. by rewrite Hfirst. Qed.

(** An exception in a later case leaves the outcomes of the earlier cases
    in front of the error record. *)
Lemma run_tests_later_case_raises (two_sum : nat -> CallOutcome)
    (actual text : string) (t : num) :
  two_sum 1 = Returns actual t ->
  two_sum 2 = Raises text ->
  run_tests two_sum
  = [outcome_record 1 "[2, 7, 11, 15], 9" "[0, 1]" actual t; error_record text].
Proof. intros H1 H2. unfold run_tests. cbn. by rewrite H1, H2. Qed.

(** The first exception ends the [try] block: what the submission would do
    in the cases after it has no influence on the list. *)
Lemma try_block_stops (two_sum two_sum' : nat -> CallOutcome) (k : nat)
    (text : string) (cases : list (string * string)) (case : nat)
    (results : list (value num)) :
  two_sum k = Raises text ->
  (forall n, n <= k -> two_sum' n = two_sum n) ->
  case <= k ->
  try_block two_sum' case cases results = try_block two_sum case cases results.
Proof.
  intros Hk Hsame. revert case results.
  induction cases as [|[input expected] cases IH]; intros case results Hle; [done|].
  cbn. rewrite (Hsame case Hle).
  destruct (two_sum case) eqn:Hcase; [|done].
  apply IH. destruct (decide (case = k)) as [->|]; [congruence|lia].
Qed.

(** X20. What the driver prints does not depend on what the submission
    would do in the cases after the first one that raises: they are not
    called. *)
Lemma run_tests_stops (two_sum two_sum' : nat -> CallOutcome) (k : nat)
    (text : string) :
  1 <= k ->
  two_sum k = Raises text ->
  (forall n, n <= k -> two_sum' n = two_sum n) ->
  run_tests two_sum' = run_tests two_sum.
Proof.
  intros Hpos Hk Hsame. unfold run_tests.
  by rewrite (try_block_stops two_sum two_sum' k text _ _ _ Hk Hsame Hpos).
Qed.

End DriverFacts.

(** ** The runner and the interpreter *)

Lemma verdict_of_outcomes {num : Type} `{JsNumber num} (w : World num)
    (message : option string) (items : list (value num)) :
  forallb is_outcome items = true ->
  is_error_payload items = false ->
  verdict_of_results w message (VArr items) =
    Normal {| success := forallb honoured items;
              output := Some (if forallb honoured items
                              then "All test cases passed!"
                              else "Some test cases failed.");
              testResults := Some (VArr items);
              executionTime := Some (toFixed4 (total_time items) +:+ "s");
              message := attach_message message;
              error := None |}.
Proof.
  intros Hitems Hnormal. unfold verdict_of_results.
  rewrite (single_error_outcomes w _ Hitems Hnormal). cbn [mbind Completion_bind].
  by rewrite (every_outcomes w _ Hitems), (reduce_outcomes w _ Hitems).
Qed.

Section RunnerClaims.

Context {num : Type} `{JsNumber num}.
Variable w : World num.

(** C3, as the code has it.  In a run whose harness was written and whose
    process has ended, removing the temporary file is the first thing done
    after the process, whatever it reported.  When the removal succeeds the
    file is gone when the verdict is returned, on every path; when it
    throws, the verdict is the cleanup failure alone, whatever the process
    reported, and the file is left as the process left it. *)
Theorem cleanup_comes_first (code modifiedCode : string) (message : option string)
    (fs : gmap string string) (error : option Error.t) (stdout stderr : string) :
  validateCode code = Valid modifiedCode message ->
  writeFileSync_throws w = None ->
  exec_outcome w = ExecCallback error stdout stderr ->
  (exists rest,
     actions (runCode w code fs)
     = WriteFile (temp_file w) (modifiedCode +:+ DRIVER)
       :: Exec (python (temp_file w)) :: Unlink (temp_file w) :: rest) /\
  (unlinkSync_throws w = None ->
   files (runCode w code fs) !! temp_file w = None) /\
  (forall e, unlinkSync_throws w = Some e ->
   completion (runCode w code fs)
   = Normal (failure (VStr ("Failed to process execution results: "
                            +:+ Error.message e))) /\
   files (runCode w code fs)
   = process_files w (<[temp_file w := modifiedCode +:+ DRIVER]> fs)).
Proof.
  intros Hvalid Hwrite Hexec.
  rewrite (runCode_callback w _ _ _ fs _ _ _ Hvalid Hwrite Hexec),
          (executeCode_callback w _ _ _ _ _ _ Hexec).
  destruct (unlinkSync_throws w) as [e'|]; [|destruct error]; cbn.
  - split_and!; [by eexists|done|]. by intros e [= <-].
  - split_and!; [by eexists| |done]. intros _. apply lookup_delete_eq.
  - split_and!; [by eexists| |done]. intros _. apply lookup_delete_eq.
Qed.

(** C7, as the code has it.  When the process ended with an error and the
    temporary file was removed, the verdict has [success = false] and its
    error is the captured stderr, or the description of the process error
    when stderr is empty; there are no test results and nothing is
    parsed. *)
Theorem exit_error_verdict (filePath : string) (message : option string)
    (fs : gmap string string) (e : Error.t) (stdout stderr : string) :
  exec_outcome w = ExecCallback (Some e) stdout stderr ->
  unlinkSync_throws w = None ->
  executeCode w filePath message fs =
    mkRun (Normal {| success := false;
                     output := None;
                     testResults := None;
                     executionTime := None;
                     message := None;
                     error := Some (VStr (if isEmpty stderr then Error.message e
                                          else stderr)) |})
          (delete filePath (process_files w fs))
          [Exec (python filePath); Unlink filePath].
Proof.
  intros Hexec Hunlink.
  by rewrite (executeCode_callback w _ _ _ _ _ _ Hexec), Hunlink.
Qed.

(** C8, as the code has it.  When the process ended cleanly, the temporary
    file was removed, and parsing the captured stdout or reading the
    parsed value as a list of records throws, the verdict has
    [success = false], no test results, and an error made of the reason
    and of the whole captured output. *)
Theorem unparsable_output_verdict (filePath : string) (message : option string)
    (fs : gmap string string) (stdout stderr : string) (e : Error.t) :
  exec_outcome w = ExecCallback None stdout stderr ->
  unlinkSync_throws w = None ->
  JSON_parse w stdout ≫= verdict_of_results w message = Throw e ->
  executeCode w filePath message fs =
    mkRun (Normal {| success := false;
                     output := None;
                     testResults := None;
                     executionTime := None;
                     message := None;
                     error := Some (VStr ("Failed to parse Python output: "
                                          +:+ Error.message e
                                          +:+ String LF ("Raw output: " +:+ stdout))) |})
          (delete filePath (process_files w fs))
          [Exec (python filePath); Unlink filePath; Parse stdout].
Proof.
  intros Hexec Hunlink Hthrow.
  by rewrite (executeCode_callback w _ _ _ _ _ _ Hexec), Hunlink, Hthrow.
Qed.

(** C6, as the code has it.  When the process ended cleanly, the temporary
    file was removed, and the captured stdout parses as a list of outcome
    records that is not the single error record, the verdict's success is
    the conjunction of the honoured passed flags, its output says whether
    all cases passed, and its test results are the parsed list. *)
Theorem normal_outcome_verdict (filePath : string) (message : option string)
    (fs : gmap string string) (stdout stderr : string) (items : list (value num)) :
  exec_outcome w = ExecCallback None stdout stderr ->
  unlinkSync_throws w = None ->
  JSON_parse w stdout = Normal (VArr items) ->
  forallb is_outcome items = true ->
  is_error_payload items = false ->
  completion (executeCode w filePath message fs) =
    Normal {| success := forallb honoured items;
              output := Some (if forallb honoured items
                              then "All test cases passed!"
                              else "Some test cases failed.");
              testResults := Some (VArr items);
              executionTime := Some (toFixed4 (total_time items) +:+ "s");
              message := attach_message message;
              error := None |}.
Proof.
  intros Hexec Hunlink Hparse Hitems Hnormal.
  rewrite (executeCode_callback w _ _ _ _ _ _ Hexec), Hunlink, Hparse.
  cbn [mbind Completion_bind completion].
  by rewrite (verdict_of_outcomes w message _ Hitems Hnormal).
Qed.

End RunnerClaims.

(** ** The claims on concrete runs *)

Lemma cleanup_comes_first_witness :
  validateCode import_error_code = Valid import_error_code None /\
  writeFileSync_throws masking_world = None /\
  exec_outcome masking_world
    = ExecCallback (Some (command_failed import_error)) "" import_error /\
  completion (runCode masking_world import_error_code ∅)
    = Normal (cleanup_failure EPERM).
Proof.
  split_and!; [reflexivity..|].
  exact (proj1 (proj2 (proj2 (cleanup_comes_first masking_world import_error_code
                                import_error_code None ∅ _ _ _
                                eq_refl eq_refl eq_refl)) EPERM eq_refl)).
Defined.

(** C3 as stated fails: the process reported an error on stderr, removing
    the file threw, and the verdict names the cleanup failure only; neither
    stderr nor the process error appears in it, and the file is still
    there. *)
Lemma cleanup_failure_masks_execution_failure :
  exec_outcome masking_world
    = ExecCallback (Some (command_failed import_error)) "" import_error /\
  unlinkSync_throws masking_world = Some EPERM /\
  completion (runCode masking_world import_error_code ∅)
    = Normal (failure (VStr ("Failed to process execution results: "
                             +:+ Error.message EPERM))) /\
  includes ("Failed to process execution results: " +:+ Error.message EPERM)
           import_error = false /\
  includes ("Failed to process execution results: " +:+ Error.message EPERM)
           (Error.message (command_failed import_error)) = false /\
  files (runCode masking_world import_error_code ∅) !! sample_path
    = Some (import_error_code +:+ DRIVER).
Proof. split_and!; vm_compute; reflexivity. Qed.

Lemma exit_error_verdict_witness :
  exec_outcome (crash_world not_found None)
    = ExecCallback (Some (command_failed not_found)) "" not_found /\
  unlinkSync_throws (crash_world not_found None) = None /\
  completion (executeCode (crash_world not_found None) sample_path None ∅)
    = Normal (failure (VStr not_found)).
Proof.
  split_and!; [reflexivity..|].
  by rewrite (exit_error_verdict (crash_world not_found None) sample_path None ∅
                (command_failed not_found) "" not_found eq_refl eq_refl).
Defined.

(** C7 as stated fails: [giving_up_code] removes its file and ends with a
    text on stderr and a non-zero status; [unlinkSync] throws, and the
    verdict's error is the cleanup failure, not the captured stderr. *)
Lemma exit_error_hidden_by_cleanup_failure :
  exec_outcome giving_up_world
    = ExecCallback (Some (command_failed giving_up_stderr)) "" giving_up_stderr /\
  isEmpty giving_up_stderr = false /\
  completion (runCode giving_up_world giving_up_code ∅)
    = Normal (failure (VStr ("Failed to process execution results: "
                             +:+ Error.message ENOENT))) /\
  String.eqb ("Failed to process execution results: " +:+ Error.message ENOENT)
             giving_up_stderr = false.
Proof. split_and!; vm_compute; reflexivity. Qed.

Lemma unparsable_output_verdict_witness :
  exec_outcome (clean_world chatty_output None) = ExecCallback None chatty_output "" /\
  unlinkSync_throws (clean_world chatty_output None) = None /\
  JSON_parse (clean_world chatty_output None) chatty_output
    ≫= verdict_of_results (clean_world chatty_output None) None
    = Throw (Error.mk "Unexpected token s in JSON at position 0") /\
  completion (executeCode (clean_world chatty_output None) sample_path None ∅)
    = Normal (failure (VStr ("Failed to parse Python output: "
                             +:+ "Unexpected token s in JSON at position 0"
                             +:+ String LF ("Raw output: " +:+ chatty_output)))).
Proof.
  split_and!; [reflexivity..|].
  by rewrite (unparsable_output_verdict (clean_world chatty_output None)
                sample_path None ∅ chatty_output "" _ eq_refl eq_refl eq_refl).
Defined.

(** C8 as stated fails: [chatty_self_deleting_code] removes its file and
    prints a line before the driver's, so the process ends cleanly with an
    output that is no JSON; [unlinkSync] throws, and the verdict's error
    holds neither a parse failure nor the captured output. *)
Lemma parse_failure_hidden_by_cleanup_failure :
  exec_outcome chatty_self_deleting_world = ExecCallback None chatty_output "" /\
  JSON_parse chatty_self_deleting_world chatty_output
    = Throw (Error.mk "Unexpected token s in JSON at position 0") /\
  completion (runCode chatty_self_deleting_world chatty_self_deleting_code ∅)
    = Normal (failure (VStr ("Failed to process execution results: "
                             +:+ Error.message ENOENT))) /\
  includes ("Failed to process execution results: " +:+ Error.message ENOENT)
           chatty_output = false /\
  includes ("Failed to process execution results: " +:+ Error.message ENOENT)
           "Unexpected token" = false.
Proof. split_and!; vm_compute; reflexivity. Qed.

Lemma normal_outcome_verdict_witness :
  exec_outcome (driver_world correct_calls None)
    = ExecCallback None (printed (run_tests correct_calls)) "" /\
  unlinkSync_throws (driver_world correct_calls None) = None /\
  JSON_parse (driver_world correct_calls None) (printed (run_tests correct_calls))
    = Normal (VArr (run_tests correct_calls)) /\
  forallb is_outcome (run_tests correct_calls) = true /\
  is_error_payload (run_tests correct_calls) = false /\
  completion (executeCode (driver_world correct_calls None) sample_path None ∅)
    = Normal passing_verdict.
Proof.
  split_and!; [reflexivity..|].
  by rewrite (normal_outcome_verdict (driver_world correct_calls None) sample_path
                None ∅ _ "" (run_tests correct_calls)
                eq_refl eq_refl eq_refl eq_refl eq_refl).
Defined.

(** C6 as stated fails: the captured stdout parses as three passing
    outcomes, but the process had removed its own file, [unlinkSync]
    threw, and the verdict is a failure without test results. *)
Lemma passing_outcomes_hidden_by_cleanup_failure :
  exec_outcome self_deleting_world
    = ExecCallback None (printed (run_tests correct_calls)) "" /\
  JSON_parse self_deleting_world (printed (run_tests correct_calls))
    = Normal (VArr (run_tests correct_calls)) /\
  forallb honoured (run_tests correct_calls) = true /\
  completion (runCode self_deleting_world self_deleting_code ∅)
    = Normal {| success := false;
                output := None;
                testResults := None;
                executionTime := None;
                message := None;
                error := Some (VStr ("Failed to process execution results: "
                                     +:+ Error.message ENOENT)) |}.
Proof. split_and!; vm_compute; reflexivity. Qed.

(** ** The empty body *)

(** X21. When the indented block after the first definition line holds
    no statement, validation succeeds: the
    placeholder line is inserted right after the definition line and the
    validation carries the informational message.  A verdict that reports
    test results carries that message unchanged; a verdict that reports an
    error carries none. *)
Theorem empty_body_gets_placeholder {num : Type} `{JsNumber num}
    (code : string) (i : nat) :
  findIndex begins_definition (split_lines code) = Some i ->
  body_is_empty (drop (S i) (split_lines code)) = true ->
  validateCode code =
    Valid (join_lines (take (S i) (split_lines code)
                       ++ PASS_LINE :: drop (S i) (split_lines code)))
          (Some EMPTY_BODY_MESSAGE) /\
  forall (w : World num) (fs : gmap string string) (v : Verdict num),
    completion (runCode w code fs) = Normal v ->
    (is_Some (testResults v) -> message v = Some EMPTY_BODY_MESSAGE) /\
    (testResults v = None -> message v = None).
Proof.
  intros Hi Hempty.
  pose proof (validateCode_empty_body code i Hi Hempty) as Hvalid.
  split; [exact Hvalid|]. intros w fs v Hrun.
  destruct (runCode_returned w code fs v Hrun)
    as [[e ->]|(modifiedCode & message & results & Hvalid' & Hv)].
  { split; [by intros [? [=]]|done]. }
  rewrite Hvalid in Hvalid'. injection Hvalid' as <- <-.
  apply verdict_of_results_shape in Hv
    as [[e ->]|(allPassed & totalTime & _ & ->)]; cbn.
  - split; [by intros [? [=]]|done].
  - split; [done|]. by intros [=].
Qed.

Lemma empty_body_gets_placeholder_witness :
  findIndex begins_definition (split_lines empty_code) = Some 0 /\
  body_is_empty (drop 1 (split_lines empty_code)) = true /\
  validateCode empty_code =
    Valid (join_lines [ "def two_sum(nums, target):"; PASS_LINE; "    # TODO" ])
          (Some EMPTY_BODY_MESSAGE) /\
  completion (runCode (driver_world empty_calls None) empty_code ∅)
    = Normal empty_verdict /\
  message empty_verdict = Some EMPTY_BODY_MESSAGE.
Proof.
  destruct (empty_body_gets_placeholder (num := Fixed4) empty_code 0 eq_refl eq_refl)
    as [Hvalid Hverdict].
  assert (Hrun : completion (runCode (driver_world empty_calls None) empty_code ∅)
                 = Normal empty_verdict) by (vm_compute; reflexivity).
  split_and!; [reflexivity | reflexivity | exact Hvalid | exact Hrun |].
  exact (proj1 (Hverdict _ _ _ Hrun) (ex_intro _ _ eq_refl)).
Defined.

(** C5.  The placeholder does not keep every program valid.  The body of
    [one_line_code] stands on its definition line, so the validator finds
    the indented block empty and inserts the indented placeholder after a
    definition that is already complete; the interpreter rejects the
    harness with an IndentationError at the inserted line, and the verdict
    is that error, without the message of the validation. *)
Lemma placeholder_breaks_one_line_definition :
  findIndex begins_definition (split_lines one_line_code) = Some 0 /\
  body_is_empty (drop 1 (split_lines one_line_code)) = true /\
  validateCode one_line_code =
    Valid (join_lines [ one_line_code; PASS_LINE ]) (Some EMPTY_BODY_MESSAGE) /\
  actions (runCode (crash_world indentation_error None) one_line_code ∅) =
    [WriteFile sample_path (join_lines [ one_line_code; PASS_LINE ] +:+ DRIVER);
     Exec sample_command;
     Unlink sample_path] /\
  completion (runCode (crash_world indentation_error None) one_line_code ∅)
    = Normal {| success := false;
                output := None;
                testResults := None;
                executionTime := None;
                message := None;
                error := Some (VStr indentation_error) |}.
Proof. split_and!; vm_compute; reflexivity. Qed.
(** ** The error record *)

(** A single error record with a non-empty text is turned into a failure
    with that text. *)
Lemma error_record_verdict {num : Type} `{JsNumber num} (w : World num)
    (message : option string) (text : string) :
  isEmpty text = false ->
  verdict_of_results w message (VArr [error_record text]) = Normal (failure (VStr text)).
Proof. intros Htext. unfold verdict_of_results. cbn. by rewrite Htext. Qed.

(** C4 fails on the code: [raising_code] answers the first case and raises
    in the second.  The driver stops there, but what it prints is the
    outcome of the first case followed by the error record, two elements;
    the interpreter reads that as an outcome list, and the verdict has test
    results and no error. *)
Theorem exception_after_first_case_is_not_reported :
  answered raising_calls = 1 /\
  run_tests raising_calls
    = [ outcome_record 1 "[2, 7, 11, 15], 9" "[0, 1]" "[0, 1]" (seconds 1);
        error_record "list index out of range" ] /\
  completion (runCode (driver_world raising_calls None) raising_code ∅)
    = Normal {| success := false;
                output := Some "Some test cases failed.";
                testResults := Some (VArr (run_tests raising_calls));
                executionTime := Some "0.0001s";
                message := None;
                error := None |}.
Proof. split_and!; vm_compute; reflexivity. Qed.

(** An exception whose text is empty is not reported either, even in the
    first case: the single error record does not pass the test of line
    205. *)
Lemma exception_without_text_is_not_reported :
  run_tests silent_calls = [ error_record "" ] /\
  completion (runCode (driver_world silent_calls None) silent_code ∅)
    = Normal silent_verdict.
Proof. split_and!; vm_compute; reflexivity. Qed.

(** The second scenario of the specification: an exception with a text in
    the first case gives a failure with that text and no test results. *)
Example exception_in_first_case_is_reported :
  completion (runCode (driver_world (fun _ => Raises "list index out of range") None)
                raising_code ∅)
  = Normal (failure (VStr "list index out of range")).
Proof. vm_compute; reflexivity. Qed.

(** The third scenario of the specification: a wrong answer in the second
    case only gives three outcomes, the second of them failed, and
    [success = false]. *)
Example wrong_answer_in_second_case :
  map honoured (run_tests constant_calls) = [true; false; true] /\
  completion (runCode (driver_world constant_calls None) constant_code ∅)
  = Normal {| success := false;
              output := Some "Some test cases failed.";
              testResults := Some (VArr (run_tests constant_calls));
              executionTime := Some "0.0003s";
              message := None;
              error := None |}.
Proof. split; vm_compute; reflexivity. Qed.

(** * Further properties of the grading pipeline *)

(** ** Lines of the validated code *)

Lemma split_lines_no_LF (s : string) : forallb no_LF (split_lines s) = true.
Proof.
  induction s as [|c r IH]; [done|]. cbn [split_lines].
  destruct (Ascii.eqb c LF) eqn:E; [done|].
  pose proof (split_lines_nonempty r) as Hne.
  destruct (split_lines r) as [|l ls]; [done|].
  cbn [forallb no_LF] in *. by rewrite E.
Qed.

Lemma split_lines_single (l : string) :
  no_LF l = true -> split_lines l = [l].
Proof.
  induction l as [|c r IH]; [done|]. cbn [no_LF split_lines].
  intros [Hc Hr]%andb_true_iff. apply negb_true_iff in Hc.
  by rewrite Hc, (IH Hr).
Qed.

Lemma split_lines_app (l rest : string) :
  no_LF l = true ->
  split_lines (l +:+ String LF rest) = l :: split_lines rest.
Proof.
  induction l as [|c r IH]; [done|]. cbn [no_LF].
  intros [Hc Hr]%andb_true_iff. apply negb_true_iff in Hc.
  change (String c r +:+ String LF rest) with (String c (r +:+ String LF rest)).
  cbn [split_lines]. by rewrite Hc, (IH Hr).
Qed.

(** Splitting the joined lines gives the lines back. *)
Lemma split_join_lines (ls : list string) :
  ls <> [] -> forallb no_LF ls = true -> split_lines (join_lines ls) = ls.
Proof.
  induction ls as [|l ls IH]; [done|]. intros _.
  cbn [forallb]. intros [Hl Hls]%andb_true_iff.
  destruct ls as [|l' ls'].
  - by apply split_lines_single.
  - rewrite join_lines_cons by done.
    rewrite (split_lines_app _ _ Hl). f_equal. by apply IH.
Qed.

Lemma findIndex_lt {A : Type} (p : A -> bool) (l : list A) (i : nat) :
  findIndex p l = Some i -> i < length l.
Proof.
  intros Hi. destruct (findIndex_Some_lookup p l i Hi) as (x & Hx & _).
  by apply lookup_lt_Some in Hx.
Qed.

(** The index found only depends on the elements up to it. *)
Lemma findIndex_take {A : Type} (p : A -> bool) (l rest : list A) (i : nat) :
  findIndex p l = Some i -> findIndex p (take (S i) l ++ rest) = Some i.
Proof.
  revert i. induction l as [|x l IH]; intros i; cbn; [done|].
  destruct (p x); [by intros [= <-]|].
  intros Hi. apply fmap_Some in Hi as (i' & Hi' & ->).
  cbn. by rewrite (IH _ Hi').
Qed.

Lemma forallb_app_true {A : Type} (p : A -> bool) (l k : list A) :
  forallb p l = true -> forallb p k = true -> forallb p (l ++ k) = true.
Proof. intros Hl Hk. rewrite forallb_app. by rewrite Hl, Hk. Qed.

Lemma forallb_take_drop {A : Type} (p : A -> bool) (l : list A) (n : nat) :
  forallb p l = true -> forallb p (take n l) = true /\ forallb p (drop n l) = true.
Proof.
  intros Hl. rewrite <- (take_drop n l), forallb_app in Hl.
  by apply andb_true_iff in Hl.
Qed.

(** With a message, the returned code is the submission with the
    placeholder line after the first definition line. *)
Lemma validateCode_placeholder_lines (code modifiedCode message : string) :
  validateCode code = Valid modifiedCode (Some message) ->
  message = EMPTY_BODY_MESSAGE /\
  exists i,
    findIndex begins_definition (split_lines code) = Some i /\
    split_lines modifiedCode
    = take (S i) (split_lines code) ++ PASS_LINE :: drop (S i) (split_lines code).
Proof.
  unfold validateCode, splice_insert.
  rewrite (findIndex_ext _ _ _ is_definition_line_begins).
  destruct (findIndex begins_definition (split_lines code)) as [i|] eqn:Hi; [|done].
  rewrite Nat.add_1_r. destruct (hasImplementation _); [done|].
  intros [= <- <-]. split; [done|]. exists i. split; [done|].
  pose proof (split_lines_no_LF code) as Hlines.
  destruct (forallb_take_drop _ _ (S i) Hlines) as [Htake Hdrop].
  apply split_join_lines; [by destruct (take (S i) (split_lines code))|].
  apply forallb_app_true; [done|]. cbn [forallb]. by rewrite Hdrop.
Qed.

(** X1. [validateCode] rejects, with the one fixed error, exactly the
    submissions none of whose lines starts, after its leading white space,
    with [def two_sum].  Every other submission is returned: as it is and
    with no message exactly when the indented block after the first
    definition line holds a statement, and otherwise with the placeholder
    line inserted right after that line, every line of the submission
    kept, in order, and with the message of the empty body. *)
Theorem validateCode_keeps_every_line (code : string) :
  (existsb begins_definition (split_lines code) = false <->
   validateCode code = Invalid NO_FUNCTION_ERROR) /\
  match validateCode code with
  | Invalid error =>
      error = NO_FUNCTION_ERROR /\
      existsb begins_definition (split_lines code) = false
  | Valid modifiedCode None =>
      modifiedCode = code /\
      exists i,
        findIndex begins_definition (split_lines code) = Some i /\
        body_is_empty (drop (S i) (split_lines code)) = false
  | Valid modifiedCode (Some message) =>
      message = EMPTY_BODY_MESSAGE /\
      exists i,
        findIndex begins_definition (split_lines code) = Some i /\
        body_is_empty (drop (S i) (split_lines code)) = true /\
        split_lines modifiedCode
        = take (S i) (split_lines code) ++ PASS_LINE :: drop (S i) (split_lines code)
  end.
Proof.
  assert (Hinvalid : forall error, validateCode code = Invalid error ->
            error = NO_FUNCTION_ERROR /\
            existsb begins_definition (split_lines code) = false).
  { intros error. unfold validateCode.
    rewrite (findIndex_ext _ _ _ is_definition_line_begins).
    destruct (findIndex begins_definition (split_lines code)) eqn:Hi.
    - by destruct (hasImplementation _).
    - intros [= <-]. split; [done|]. by apply findIndex_None_existsb. }
  split.
  { split; [apply validateCode_Invalid|]. intros Hv. exact (proj2 (Hinvalid _ Hv)). }
  destruct (validateCode code) as [error|modifiedCode [message|]] eqn:Hvalid.
  - by apply Hinvalid.
  - destruct (validateCode_placeholder_lines _ _ _ Hvalid) as (-> & i & Hi & Hlines).
    split; [done|]. exists i. split_and!; [done| |done].
    revert Hvalid. unfold validateCode.
    rewrite (findIndex_ext _ _ _ is_definition_line_begins), Hi, Nat.add_1_r,
      hasImplementation_body.
    by destruct (body_is_empty _).
  - revert Hvalid. unfold validateCode.
    rewrite (findIndex_ext _ _ _ is_definition_line_begins).
    destruct (findIndex begins_definition (split_lines code)) as [i|]; [|done].
    rewrite Nat.add_1_r, hasImplementation_body.
    destruct (body_is_empty _) eqn:Hbody; intros [= <-].
    split; [done|]. by exists i.
Qed.

(** X2. Validating the code that [validateCode] returned changes nothing
    more: it comes back as it is, without a message. *)
Theorem validateCode_idempotent (code modifiedCode : string) (message : option string) :
  validateCode code = Valid modifiedCode message ->
  validateCode modifiedCode = Valid modifiedCode None.
Proof.
  intros Hvalid. destruct message as [m|].
  - destruct (validateCode_placeholder_lines _ _ _ Hvalid) as (_ & i & Hi & Hlines).
    pose proof (findIndex_lt _ _ _ Hi) as Hlt.
    unfold validateCode.
    rewrite (findIndex_ext _ _ _ is_definition_line_begins), Hlines.
    rewrite (findIndex_take _ _ _ _ Hi), Nat.add_1_r.
    rewrite drop_app_length'; [done|].
    rewrite length_take. lia.
  - revert Hvalid. unfold validateCode.
    destruct (findIndex _ _) eqn:Hi; [|done].
    destruct (hasImplementation _) eqn:Himpl; [|done].
    intros [= <-]. by rewrite Hi, Himpl.
Qed.

Lemma validateCode_idempotent_witness :
  validateCode empty_code
    = Valid (join_lines [ "def two_sum(nums, target):"; PASS_LINE; "    # TODO" ])
            (Some EMPTY_BODY_MESSAGE) /\
  validateCode (join_lines [ "def two_sum(nums, target):"; PASS_LINE; "    # TODO" ])
    = Valid (join_lines [ "def two_sum(nums, target):"; PASS_LINE; "    # TODO" ]) None.
Proof.
  split; [reflexivity|].
  exact (validateCode_idempotent empty_code _ _ eq_refl).
Defined.

(** ** Shape of every verdict *)

Section Verdicts.

Context {num : Type} `{JsNumber num}.
Variable w : World num.

(** [every] completes only on an array, with the conjunction of the
    honoured flags. *)
Lemma every_value (results : value num) (b : bool) :
  every w results = Normal b ->
  exists items, results = VArr items /\ b = forallb honoured items.
Proof.
  destruct results as [| | | | |items|]; try done. cbn.
  intros Hevery. exists items. split; [done|].
  revert Hevery. induction items as [|r items IH]; cbn; [by intros [= <-]|].
  destruct (passed_flag w r) as [flag|] eqn:Hr; [|done]. cbn.
  apply passed_flag_honoured in Hr as <-.
  destruct flag; [apply IH|by intros [= <-]].
Qed.

(** X3. A run never throws, and stays pending only when its process
    never ends.  Every verdict it returns is of one of two kinds: an error
    with [success = false] and nothing else, or test results without an
    error, where the results are an array, [success] is the conjunction of
    its honoured passed flags, and the output text says which. *)
Theorem verdict_is_error_or_results (code : string) (fs : gmap string string) :
  match completion (runCode w code fs) with
  | Pending => never_ends w code = true
  | Settled (Throw _) => False
  | Settled (Normal v) =>
      never_ends w code = false /\
      ((exists e, v = failure e) \/
       (exists items time,
          v = {| success := forallb honoured items;
                 output := Some (if forallb honoured items
                                 then "All test cases passed!"
                                 else "Some test cases failed.");
                 testResults := Some (VArr items);
                 executionTime := Some time;
                 message := message v;
                 error := None |}))
  end.
Proof.
  destruct (runCode_verdict w code fs) as [[Hnever ->]|(Hends & v & -> & Hshape)];
    [done|].
  split; [done|].
  destruct Hshape as [Hfail|(modifiedCode & msg & results & _ & Hv)]; [by left|].
  apply verdict_of_results_shape in Hv
    as [Hfail|(allPassed & totalTime & Hevery & ->)]; [by left|].
  right. apply every_value in Hevery as (items & -> & ->).
  by exists items, (totalTime +:+ "s").
Qed.

(** X4. The calls of a run are an initial part of one fixed sequence:
    write the temporary file, launch the interpreter on it, remove it,
    parse the captured output.  So a run launches at most one process,
    only on the file it wrote, and parses nothing before the removal. *)
Theorem runCode_follows_the_protocol (code : string) (fs : gmap string string) :
  exists content stdout n,
    actions (runCode w code fs)
    = take n [ WriteFile (temp_file w) content;
               Exec (python (temp_file w));
               Unlink (temp_file w);
               Parse stdout ].
Proof.
  run_cases w code fs.
  - by exists "", "", 0.
  - by eexists _, "", 1.
  - by eexists _, "", 2.
  - by eexists _, "", 3.
  - by eexists _, "", 3.
  - by eexists _, _, 4.
  - by eexists _, _, 4.
  - by eexists _, _, 4.
  - by eexists _, "", 2.
Qed.

(** X9. A run launches the interpreter exactly when the submission passed
    validation and the harness file was written. *)
Theorem process_is_launched_iff_harness_written (code : string)
    (fs : gmap string string) :
  existsb is_exec (actions (runCode w code fs))
  = match validateCode code, writeFileSync_throws w with
    | Valid _ _, None => true
    | _, _ => false
    end.
Proof. by run_cases w code fs. Qed.

(** X5. When the interpreter process leaves the files alone, a run changes
    no file but its own temporary one. *)
Theorem runCode_touches_only_its_temp_file (code path : string)
    (fs : gmap string string) :
  (forall fs', process_files w fs' = fs') ->
  path <> temp_file w ->
  files (runCode w code fs) !! path = fs !! path.
Proof.
  intros Hquiet Hpath.
  run_cases w code fs; rewrite ?Hquiet;
    rewrite ?lookup_delete_ne, ?lookup_insert_ne by done; done.
Qed.

(** X6. When the harness was written over no earlier file and the process
    leaves the files alone, the run ends with the files as it found them,
    unless it leaks: [exec] threw, the process never ended or the removal
    threw, and then the temporary file, with the submission and the driver
    in it, stays. *)
Theorem temp_file_is_left_only_by_a_leak (code modifiedCode : string)
    (message : option string) (fs : gmap string string) :
  validateCode code = Valid modifiedCode message ->
  writeFileSync_throws w = None ->
  (forall fs', process_files w fs' = fs') ->
  fs !! temp_file w = None ->
  files (runCode w code fs)
  = if leaks w then <[temp_file w := modifiedCode +:+ DRIVER]> fs else fs.
Proof.
  intros Hvalid Hwrite Hquiet Hfresh. unfold leaks.
  destruct (exec_outcome w) as [e|error stdout stderr|] eqn:Hexec.
  - by rewrite (runCode_exec_throws w _ _ _ _ fs Hvalid Hwrite Hexec).
  - rewrite (runCode_callback w _ _ _ fs _ _ _ Hvalid Hwrite Hexec),
            (executeCode_callback w _ _ _ _ _ _ Hexec).
    destruct (unlinkSync_throws w); [|destruct error]; cbn; rewrite Hquiet;
      [done|..]; by rewrite delete_insert_eq, delete_id.
  - rewrite (runCode_pending w _ _ _ fs Hvalid Hwrite Hexec). cbn.
    by rewrite Hquiet.
Qed.

(** X7. An empty outcome list counts as a pass: when the process ended
    cleanly, the file was removed and the output parses as the empty
    array, the verdict has [success = true] with no test result at all. *)
Theorem empty_outcome_list_passes (filePath : string) (message : option string)
    (fs : gmap string string) (stdout stderr : string) :
  exec_outcome w = ExecCallback None stdout stderr ->
  unlinkSync_throws w = None ->
  JSON_parse w stdout = Normal (VArr []) ->
  completion (executeCode w filePath message fs)
  = Normal {| success := true;
              output := Some "All test cases passed!";
              testResults := Some (VArr []);
              executionTime := Some (toFixed4 (zero (num := num)) +:+ "s");
              message := attach_message message;
              error := None |}.
Proof.
  intros Hexec Hunlink Hparse.
  by rewrite (executeCode_callback w _ _ _ _ _ _ Hexec), Hunlink, Hparse.
Qed.

(** X8. An output that is valid JSON but no list (null, a boolean, a
    number, a text) is reported like an unparsable one: the verdict is the
    parse failure with the engine's type error and the whole output. *)
Theorem scalar_output_is_a_parse_failure (filePath : string)
    (message : option string) (fs : gmap string string)
    (stdout stderr : string) (results : value num) :
  exec_outcome w = ExecCallback None stdout stderr ->
  unlinkSync_throws w = None ->
  JSON_parse w stdout = Normal results ->
  is_scalar results = true ->
  completion (executeCode w filePath message fs)
  = Normal (failure (VStr ("Failed to parse Python output: "
              +:+ Error.message
                    (typeError w match results with
                                 | VNull => ReadOfNullish "length"
                                 | _ => NotAFunction "results.every"
                                 end)
              +:+ String LF ("Raw output: " +:+ stdout)))).
Proof.
  intros Hexec Hunlink Hparse Hscalar.
  rewrite (executeCode_callback w _ _ _ _ _ _ Hexec), Hunlink, Hparse.
  destruct results as [| |b|n|s|items|props]; try done.
  cbn. unfold verdict_of_results, single_error. cbn.
  destruct (String.length s =? 1) eqn:Hlen; [|done].
  by destruct s.
Qed.

End Verdicts.

(** ** The driver and the interpreter together *)

Section DriverVerdicts.

Context {num : Type} `{JsNumber num}.

Lemma try_block_outcomes (two_sum : nat -> CallOutcome) (case : nat)
    (cases : list (string * string)) (results : list (value num)) :
  forallb is_outcome results = true ->
  forallb is_outcome (fst (try_block two_sum case cases results)) = true.
Proof.
  revert case results. induction cases as [|[input expected] cases IH];
    intros case results Hresults; cbn; [done|].
  destruct (two_sum case); [|done].
  apply IH. rewrite forallb_app. by rewrite Hresults.
Qed.

(** Whatever the submission does, the driver prints records the
    interpreter can read: outcome records, then at most the error
    record. *)
Lemma run_tests_outcomes (two_sum : nat -> CallOutcome) :
  forallb is_outcome (run_tests two_sum) = true.
Proof.
  unfold run_tests.
  pose proof (try_block_outcomes two_sum 1 testCases [] eq_refl) as Hblock.
  destruct (try_block two_sum 1 testCases []) as [results [text|]]; [|done].
  cbn in Hblock. rewrite forallb_app. by rewrite Hblock.
Qed.

(** The driver's list is the single error record exactly when the first
    case raises an exception with a text. *)
Lemma run_tests_error_payload (two_sum : nat -> CallOutcome) :
  is_error_payload (run_tests two_sum)
  = match two_sum 1 with
    | Raises text => negb (isEmpty text)
    | Returns _ _ => false
    end.
Proof.
  unfold run_tests. cbn.
  destruct (two_sum 1); [|done].
  destruct (two_sum 2); [|done].
  by destruct (two_sum 3).
Qed.

(** All flags of the driver's list are honoured exactly when each of the
    three calls returns the expected text. *)
Lemma run_tests_honoured (two_sum : nat -> CallOutcome) :
  forallb honoured (run_tests two_sum)
  = match two_sum 1, two_sum 2, two_sum 3 with
    | Returns a1 _, Returns a2 _, Returns a3 _ =>
        String.eqb a1 "[0, 1]" && String.eqb a2 "[1, 2]" && String.eqb a3 "[0, 1]"
    | _, _, _ => false
    end.
Proof.
  unfold run_tests. cbn.
  destruct (two_sum 1) as [a1 t1|]; [|done].
  destruct (two_sum 2) as [a2 t2|]; cbn; [|by rewrite andb_false_r].
  destruct (two_sum 3) as [a3 t3|]; cbn;
    [by rewrite andb_true_r, andb_assoc|by rewrite !andb_false_r].
Qed.

Variable w : World num.

(** X10. When the process ended cleanly, the file was removed and
    [JSON.parse] reads back what the driver printed, the submission is
    graded as passed exactly when each of the three calls returns a value
    whose text is the expected one; otherwise [success] is [false]. *)
Theorem graded_as_passed_iff_all_answers_match (two_sum : nat -> CallOutcome)
    (filePath : string) (message : option string) (fs : gmap string string)
    (stdout stderr : string) :
  exec_outcome w = ExecCallback None stdout stderr ->
  unlinkSync_throws w = None ->
  JSON_parse w stdout = Normal (VArr (run_tests two_sum)) ->
  exists v,
    completion (executeCode w filePath message fs) = Normal v /\
    success v
    = match two_sum 1, two_sum 2, two_sum 3 with
      | Returns a1 _, Returns a2 _, Returns a3 _ =>
          String.eqb a1 "[0, 1]" && String.eqb a2 "[1, 2]" && String.eqb a3 "[0, 1]"
      | _, _, _ => false
      end.
Proof.
  intros Hexec Hunlink Hparse.
  rewrite (executeCode_callback w _ _ _ _ _ _ Hexec), Hunlink, Hparse.
  cbn [mbind Completion_bind completion].
  pose proof (run_tests_outcomes two_sum) as Hitems.
  pose proof (run_tests_error_payload two_sum) as Hpayload.
  destruct (is_error_payload (run_tests two_sum)) eqn:Herr.
  - destruct (two_sum 1) as [|text] eqn:Hfirst; [done|].
    rewrite (run_tests_first_case_raises _ _ Hfirst).
    rewrite error_record_verdict; [|by destruct (isEmpty text)].
    by eexists.
  - rewrite (verdict_of_outcomes w message _ Hitems Herr).
    eexists. split; [done|]. cbn. apply run_tests_honoured.
Qed.

(** X11. Under the same conditions the verdict carries the text of an
    exception as its error exactly when the first case raised it and the
    text is not empty; in every other run, also when a later case raises,
    the verdict carries the driver's whole list as test results and no
    error. *)
Theorem only_a_first_case_exception_is_reported (two_sum : nat -> CallOutcome)
    (filePath : string) (message : option string) (fs : gmap string string)
    (stdout stderr : string) :
  exec_outcome w = ExecCallback None stdout stderr ->
  unlinkSync_throws w = None ->
  JSON_parse w stdout = Normal (VArr (run_tests two_sum)) ->
  exists v,
    completion (executeCode w filePath message fs) = Normal v /\
    match two_sum 1 with
    | Raises text =>
        if isEmpty text
        then error v = None /\ testResults v = Some (VArr [error_record text])
        else v = failure (VStr text)
    | Returns _ _ =>
        error v = None /\ testResults v = Some (VArr (run_tests two_sum))
    end.
Proof.
  intros Hexec Hunlink Hparse.
  rewrite (executeCode_callback w _ _ _ _ _ _ Hexec), Hunlink, Hparse.
  cbn [mbind Completion_bind completion].
  pose proof (run_tests_outcomes two_sum) as Hitems.
  pose proof (run_tests_error_payload two_sum) as Hpayload.
  destruct (two_sum 1) as [a1 t1|text] eqn:Hfirst.
  - rewrite (verdict_of_outcomes w message _ Hitems Hpayload). by eexists.
  - destruct (isEmpty text) eqn:Htext; cbn in Hpayload.
    + rewrite (verdict_of_outcomes w message _ Hitems Hpayload).
      eexists. split; [done|]. cbn.
      by rewrite (run_tests_first_case_raises _ _ Hfirst).
    + rewrite (run_tests_first_case_raises _ _ Hfirst).
      rewrite (error_record_verdict w message text Htext). by eexists.
Qed.

End DriverVerdicts.

(** ** The middleware *)

Lemma split_at_lacks (sep : ascii) (s : string) :
  lacks sep s = true -> split_at sep s = [s].
Proof.
  induction s as [|c r IH]; [done|]. cbn [lacks split_at].
  intros [Hc Hr]%andb_true_iff. apply negb_true_iff in Hc.
  by rewrite Hc, (IH Hr).
Qed.

Lemma split_at_app (sep : ascii) (l rest : string) :
  lacks sep l = true ->
  split_at sep (l +:+ String sep rest) = l :: split_at sep rest.
Proof.
  induction l as [|c r IH]; cbn [lacks].
  - intros _. change ("" +:+ String sep rest) with (String sep rest).
    cbn [split_at]. by rewrite Ascii.eqb_refl.
  - intros [Hc Hr]%andb_true_iff. apply negb_true_iff in Hc.
    change (String c r +:+ String sep rest) with (String c (r +:+ String sep rest)).
    cbn [split_at]. by rewrite Hc, (IH Hr).
Qed.

Lemma append_nil_r (s : string) : s +:+ "" = s.
Proof.
  induction s as [|c r IH]; [done|].
  change (String c r +:+ "") with (String c (r +:+ "")). by rewrite IH.
Qed.

Lemma isEmpty_app_cons (l : string) (c : ascii) (rest : string) :
  isEmpty (l +:+ String c rest) = false.
Proof. by destruct l. Qed.

(** The token is the second word of the header: what stands before the
    first space is not looked at, and neither is what follows the
    second. *)
Lemma token_of_second_word (scheme token : string) (junk : option string) :
  lacks " " scheme = true ->
  lacks " " token = true ->
  token_of (Some (scheme +:+ String " " (token +:+ from_option (String " ") "" junk)))
  = Some token.
Proof.
  intros Hscheme Htoken. unfold token_of.
  rewrite isEmpty_app_cons, (split_at_app _ _ _ Hscheme).
  destruct junk as [j|]; cbn [from_option].
  - by rewrite (split_at_app _ _ _ Htoken).
  - by rewrite append_nil_r, (split_at_lacks _ _ Htoken).
Qed.

Lemma token_of_one_word (header : string) :
  lacks " " header = true ->
  match token_of (Some header) with
  | None => True
  | Some token => isEmpty token = true
  end.
Proof.
  intros Hheader. unfold token_of.
  destruct (isEmpty header) eqn:Hempty; [done|].
  by rewrite (split_at_lacks _ _ Hheader).
Qed.

Section RouteFacts.

Context {num : Type} `{JsNumber num}.
Variable w : World num.
Variable site : Site.

(** X12. A request to the run route whose [Authorization] header is
    missing or has no space in it is refused with 401: no token is
    verified, nothing is run, stored or written. *)
Theorem run_without_a_token_is_refused (authHeader : option string)
    (code : value num) (db : Db) (fs : gmap string string) :
  from_option (lacks " ") true authHeader = true ->
  api_run w site authHeader code db fs
  = mkServed (Sent 401 (ErrorBody "Access denied")) db fs [].
Proof.
  intros Hheader. unfold api_run, authenticateToken.
  destruct authHeader as [header|]; [|done]. cbn in Hheader.
  pose proof (token_of_one_word header Hheader) as Htoken.
  destruct (token_of (Some header)) as [token|]; [|done]. by rewrite Htoken.
Qed.

(** X13. The run route takes the second word of the header as the token,
    whatever the first word is and whatever follows the second: an empty
    one is refused with 401, one that [jwt.verify] rejects with 403, both
    before anything is run, and otherwise the handler runs for the user
    of the token. *)
Theorem run_takes_the_second_word_as_token (scheme token : string)
    (junk : option string) (code : value num) (db : Db) (fs : gmap string string) :
  lacks " " scheme = true ->
  lacks " " token = true ->
  api_run w site
    (Some (scheme +:+ String " " (token +:+ from_option (String " ") "" junk)))
    code db fs
  = if isEmpty token then mkServed (Sent 401 (ErrorBody "Access denied")) db fs []
    else match jwt_verify site token with
         | None => mkServed (Sent 403 (ErrorBody "Invalid token")) db fs []
         | Some user => run_handler w site user code db fs
         end.
Proof.
  intros Hscheme Htoken. unfold api_run, authenticateToken.
  rewrite (token_of_second_word _ _ _ Hscheme Htoken).
  destruct (isEmpty token); [done|]. by destruct (jwt_verify site token).
Qed.

(** [JSON.stringify] of a verdict is a text, so the [console.log] of
    line 190 does not throw. *)
Lemma results_log_verdict (v : Verdict num) :
  results_log w (VObj (verdict_props v)) = Normal ().
Proof. reflexivity. Qed.

(** The handler on a non-empty text, by the way [runCode] completes. *)
Lemma run_handler_text (user : Token.payload) (text : string)
    (db : Db) (fs : gmap string string) :
  isEmpty text = false ->
  run_handler w site user (VStr text) db fs
  = match completion (runCode w text fs) with
    | Pending =>
        mkServed Waiting db (files (runCode w text fs)) (actions (runCode w text fs))
    | Settled (Throw error) =>
        mkServed
          (Sent 500 (CrashBody ("An error occurred while processing your code: "
                                +:+ Error.message error)))
          db (files (runCode w text fs)) (actions (runCode w text fs))
    | Settled (Normal v) =>
        match db_run_error site with
        | Some err =>
            mkServed (Sent 500 (ErrorBody (Error.message err))) db
                     (files (runCode w text fs)) (actions (runCode w text fs))
        | None =>
            mkServed (Sent 200 (GradedBody (S (lastID db)) v))
                     {| submissions :=
                          submissions db
                          ++ [ {| sub_id := S (lastID db);
                                  sub_user_id := Token.id user;
                                  sub_problem_id := Some 1;
                                  sub_code := text;
                                  sub_status := if success v then "passed" else "failed";
                                  sub_created_at := CURRENT_TIMESTAMP site |} ];
                        lastID := S (lastID db) |}
                     (files (runCode w text fs)) (actions (runCode w text fs))
        end
    end.
Proof.
  intros Htext. unfold run_handler. cbn [truthy]. rewrite Htext. cbn [negb].
  destruct (completion (runCode w text fs)) as [[v|e]|]; [|done|done].
  cbn [mbind Completion_bind]. rewrite results_log_verdict.
  cbn. by destruct (db_run_error site).
Qed.


(** The handler on a code that is no text. *)
Lemma code_is_no_text (user : Token.payload) (code : value num)
    (db : Db) (fs : gmap string string) :
  is_text code = false ->
  run_handler w site user code db fs
  = mkServed (if truthy code
              then Thrown (typeError w (NotAFunction "code.substring"))
              else Sent 400 (ErrorBody "Code is required"))
             db fs [].
Proof.
  intros Hcode. unfold run_handler.
  destruct code as [| |b|n|s|items|props]; try done; cbn.
  - by destruct b.
  - by destruct (num_truthy n).
Qed.

(** X15. A code that is no text never reaches the grader: a falsy one
    (absent, null, false, zero) is refused with 400, and for any other the
    handler throws a type error before its [try] and sends no reply of its
    own; in both cases nothing is run or stored. *)
Theorem code_that_is_no_text_is_not_run (user : Token.payload) (code : value num)
    (db : Db) (fs : gmap string string) :
  is_text code = false ->
  run_handler w site user code db fs
  = mkServed (if truthy code
              then Thrown (typeError w (NotAFunction "code.substring"))
              else Sent 400 (ErrorBody "Code is required"))
             db fs [].
Proof.
  intros Hcode. unfold run_handler.
  destruct code as [| |b|n|s|items|props]; try done; cbn.
  - by destruct b.
  - by destruct (num_truthy n).
Qed.


End RouteFacts.

(** ** The table of submissions *)

#[global] Instance newer_first_total : Total newer_first.
Proof. intros a b. unfold newer_first. lia. Qed.

Lemma select_submissions_Permutation (user_id : nat) (db : Db) :
  select_submissions user_id db
  ≡ₚ filter (fun row => sub_user_id row = user_id) (submissions db).
Proof. apply merge_sort_Permutation. Qed.

Lemma select_submissions_elem (user_id : nat) (db : Db) (row : Submission) :
  row ∈ select_submissions user_id db
  <-> row ∈ submissions db /\ sub_user_id row = user_id.
Proof.
  rewrite select_submissions_Permutation, list_elem_of_filter. tauto.
Qed.

Lemma insert_submission_wf (site : Site) (user_id : nat) (problem_id : option nat)
    (code status : string) (db : Db) :
  db_wf db -> db_wf (insert_submission site user_id problem_id code status db).
Proof.
  intros [Hnodup Hbound]. split; cbn.
  - rewrite fmap_app. apply NoDup_app. split_and!; [done| |apply NoDup_singleton].
    intros id Hid Hnew. apply list_elem_of_singleton in Hnew as ->.
    apply list_elem_of_fmap in Hid as (row & Hrow & Hin).
    rewrite Forall_forall in Hbound. specialize (Hbound row Hin). cbn in Hrow. lia.
  - apply Forall_app. split; [|by apply Forall_singleton].
    eapply Forall_impl; [exact Hbound|]. cbn. intros row Hrow. lia.
Qed.

Lemma select_submissions_insert_other (site : Site) (user_id other : nat)
    (problem_id : option nat) (code status : string) (db : Db) :
  other <> user_id ->
  select_submissions other (insert_submission site user_id problem_id code status db)
  = select_submissions other db.
Proof.
  intros Hother. unfold select_submissions, insert_submission. cbn.
  rewrite filter_app, filter_cons_False, filter_nil, app_nil_r; [done|].
  cbn. congruence.
Qed.

Section TableFacts.

Context {num : Type} `{JsNumber num}.
Variable w : World num.
Variable site : Site.

(** X17. The list route shows a user the rows stored for that user, all
    of them and no row of anyone else, the newest first. *)
Theorem listed_rows_are_the_users_own (user : Token.payload) (db : Db) :
  db_all_error site = None ->
  exists rows,
    list_handler (num := num) site user db = Sent 200 (ListBody rows) /\
    rows ≡ₚ filter (fun row => sub_user_id row = Token.id user) (submissions db) /\
    Sorted newer_first rows.
Proof.
  intros Hall. unfold list_handler. rewrite Hall.
  eexists. split; [done|]. split.
  - apply select_submissions_Permutation.
  - apply Sorted_merge_sort. apply _.
Qed.

(** X18. A graded submission is listed afterwards: once the process has
    ended and the run route has stored a text for a user, that user's list holds a row with the text,
    the key that was replied and the status of the verdict, and the list
    of every other user is what it was. *)
Theorem graded_submission_is_listed (user : Token.payload) (text : string)
    (db : Db) (fs : gmap string string) :
  isEmpty text = false ->
  never_ends w text = false ->
  db_run_error site = None ->
  exists (v : Verdict num) (row : Submission),
    reply (run_handler w site user (VStr text) db fs)
    = Sent 200 (GradedBody (sub_id row) v) /\
    row ∈ select_submissions (Token.id user)
            (database (run_handler w site user (VStr text) db fs)) /\
    sub_code row = text /\
    sub_status row = (if success v then "passed" else "failed") /\
    forall other,
      other <> Token.id user ->
      select_submissions other (database (run_handler w site user (VStr text) db fs))
      = select_submissions other db.
Proof.
  intros Htext Hends Hdb. rewrite (run_handler_text w site user text db fs Htext).
  destruct (runCode_verdict w text fs) as [[Hnever _]|(_ & v & Hrun & _)];
    [congruence|].
  rewrite Hrun, Hdb. cbn [reply database].
  exists v, {| sub_id := S (lastID db);
               sub_user_id := Token.id user;
               sub_problem_id := Some 1;
               sub_code := text;
               sub_status := if success v then "passed" else "failed";
               sub_created_at := CURRENT_TIMESTAMP site |}.
  split; [reflexivity|]. split_and!.
  - apply select_submissions_elem. split; [|reflexivity].
    cbn. apply elem_of_app. right. apply list_elem_of_here.
  - reflexivity.
  - reflexivity.
  - intros other Hother. by apply select_submissions_insert_other.
Qed.

(** X19. The routes keep the table well formed, never change or drop a
    row and add at most one: after the run route and after the create
    route the keys are still distinct and within the counter, and the
    table is the earlier one followed by no row or by one new row. *)
Theorem routes_only_append_rows (authHeader : option string) (code : value num)
    (problem_id : option nat) (body_code : option string) (db : Db)
    (fs : gmap string string) :
  db_wf db ->
  (db_wf (database (api_run w site authHeader code db fs)) /\
   exists rows,
     submissions (database (api_run w site authHeader code db fs))
     = submissions db ++ rows /\
     length rows <= 1) /\
  (db_wf (snd (api_create (num := num) site authHeader problem_id body_code db)) /\
   exists rows,
     submissions (snd (api_create (num := num) site authHeader problem_id body_code db))
     = submissions db ++ rows /\
     length rows <= 1).
Proof.
  intros Hwf.
  assert (Hsame : db_wf db /\
            exists rows, submissions db = submissions db ++ rows /\ length rows <= 1).
  { split; [done|]. exists []. split; [by rewrite app_nil_r | cbn; lia]. }
  assert (Hone : forall user_id problem text status,
            let db' := insert_submission site user_id problem text status db in
            db_wf db' /\
            exists rows, submissions db' = submissions db ++ rows /\ length rows <= 1).
  { intros user_id problem text status. split; [by apply insert_submission_wf|].
    eexists [_]. split; [reflexivity | cbn; lia]. }
  split.
  - unfold api_run. destruct (authenticateToken site authHeader) as [s e|user]; [done|].
    destruct (is_text code) eqn:Hcode.
    + destruct code as [| | | |text| |]; try done.
      destruct (isEmpty text) eqn:Htext.
      * unfold run_handler. cbn [truthy]. by rewrite Htext.
      * rewrite (run_handler_text w site user text db fs Htext).
        destruct (completion (runCode w text fs)) as [[v|e]|]; [|done|done].
        destruct (db_run_error site); [done|]. apply Hone.
    + by rewrite (code_is_no_text w site user code db fs Hcode).
  - unfold api_create. destruct (authenticateToken site authHeader) as [s e|user]; [done|].
    unfold create_handler. destruct body_code as [text|]; [|done].
    destruct (isEmpty text); [done|].
    destruct (db_run_error site); [done|]. apply Hone.
Qed.

End TableFacts.

(** ** The further properties on concrete runs *)

Lemma runCode_touches_only_its_temp_file_witness :
  (forall fs', process_files (driver_world correct_calls None) fs' = fs') /\
  "/tmp/other.py" <> temp_file (driver_world correct_calls None) /\
  files (runCode (driver_world correct_calls None) correct_code
           {[ "/tmp/other.py" := "print(1)" ]}) !! "/tmp/other.py"
  = ({[ "/tmp/other.py" := "print(1)" ]} : gmap string string) !! "/tmp/other.py".
Proof.
  assert (Hquiet : forall fs', process_files (driver_world correct_calls None) fs' = fs')
    by (intros fs'; reflexivity).
  assert (Hpath : "/tmp/other.py" <> temp_file (driver_world correct_calls None))
    by (vm_compute; discriminate).
  split_and!; [exact Hquiet | exact Hpath |].
  exact (runCode_touches_only_its_temp_file (driver_world correct_calls None)
           correct_code "/tmp/other.py" _ Hquiet Hpath).
Defined.

Lemma temp_file_is_left_only_by_a_leak_witness :
  validateCode correct_code = Valid correct_code None /\
  writeFileSync_throws no_spawn_world = None /\
  (forall fs', process_files no_spawn_world fs' = fs') /\
  (∅ : gmap string string) !! temp_file no_spawn_world = None /\
  leaks no_spawn_world = true /\
  files (runCode no_spawn_world correct_code ∅)
  = <[temp_file no_spawn_world := correct_code +:+ DRIVER]> ∅.
Proof.
  assert (Hquiet : forall fs', process_files no_spawn_world fs' = fs')
    by (intros fs'; reflexivity).
  split_and!; [reflexivity | reflexivity | exact Hquiet | reflexivity | reflexivity |].
  exact (temp_file_is_left_only_by_a_leak no_spawn_world correct_code correct_code
           None ∅ eq_refl eq_refl Hquiet eq_refl).
Defined.

Lemma empty_outcome_list_passes_witness :
  exec_outcome early_exit_world = ExecCallback None (printed []) "" /\
  unlinkSync_throws early_exit_world = None /\
  JSON_parse early_exit_world (printed []) = Normal (VArr []) /\
  completion (executeCode early_exit_world sample_path None ∅)
  = Normal {| success := true;
              output := Some "All test cases passed!";
              testResults := Some (VArr []);
              executionTime := Some "0.0000s";
              message := None;
              error := None |}.
Proof.
  split_and!; [reflexivity..|].
  by rewrite (empty_outcome_list_passes early_exit_world sample_path None ∅
                (printed []) "" eq_refl eq_refl eq_refl).
Defined.

Lemma scalar_output_is_a_parse_failure_witness :
  exec_outcome null_world = ExecCallback None null_output "" /\
  unlinkSync_throws null_world = None /\
  JSON_parse null_world null_output = Normal VNull /\
  is_scalar (VNull (num := Fixed4)) = true /\
  completion (executeCode null_world sample_path None ∅)
  = Normal (failure (VStr ("Failed to parse Python output: "
              +:+ "Cannot read properties of null (reading 'length')"
              +:+ String LF ("Raw output: " +:+ null_output)))).
Proof.
  split_and!; [reflexivity..|].
  by rewrite (scalar_output_is_a_parse_failure null_world sample_path None ∅
                null_output "" VNull eq_refl eq_refl eq_refl eq_refl).
Defined.

Lemma run_tests_stops_witness :
  1 <= 2 /\
  raising_calls 2 = Raises "list index out of range" /\
  (forall n, n <= 2 -> other_third_calls n = raising_calls n) /\
  run_tests other_third_calls = run_tests raising_calls.
Proof.
  assert (Hsame : forall n, n <= 2 -> other_third_calls n = raising_calls n).
  { intros [|[|[|n]]] Hn; try reflexivity. lia. }
  split_and!; [lia | reflexivity | exact Hsame |].
  exact (run_tests_stops raising_calls other_third_calls 2 _ (le_S _ _ (le_n 1))
           eq_refl Hsame).
Defined.

Lemma graded_as_passed_witness :
  exec_outcome (driver_world correct_calls None)
    = ExecCallback None (printed (run_tests correct_calls)) "" /\
  unlinkSync_throws (driver_world correct_calls None) = None /\
  JSON_parse (driver_world correct_calls None) (printed (run_tests correct_calls))
    = Normal (VArr (run_tests correct_calls)) /\
  exists v,
    completion (executeCode (driver_world correct_calls None) sample_path None ∅)
      = Normal v /\
    success v = true.
Proof.
  split_and!; [reflexivity..|].
  exact (graded_as_passed_iff_all_answers_match (driver_world correct_calls None)
           correct_calls sample_path None ∅ _ "" eq_refl eq_refl eq_refl).
Defined.

Lemma only_a_first_case_exception_witness :
  exec_outcome (driver_world raising_calls None)
    = ExecCallback None (printed (run_tests raising_calls)) "" /\
  unlinkSync_throws (driver_world raising_calls None) = None /\
  JSON_parse (driver_world raising_calls None) (printed (run_tests raising_calls))
    = Normal (VArr (run_tests raising_calls)) /\
  exists v,
    completion (executeCode (driver_world raising_calls None) sample_path None ∅)
      = Normal v /\
    error v = None /\
    testResults v = Some (VArr (run_tests raising_calls)).
Proof.
  split_and!; [reflexivity..|].
  exact (only_a_first_case_exception_is_reported (driver_world raising_calls None)
           raising_calls sample_path None ∅ _ "" eq_refl eq_refl eq_refl).
Defined.

Lemma run_without_a_token_witness :
  from_option (lacks " ") true (Some "Bearer") = true /\
  api_run (driver_world correct_calls None) sample_site (Some "Bearer")
    (VStr correct_code) sample_db ∅
  = mkServed (Sent 401 (ErrorBody "Access denied")) sample_db ∅ [].
Proof.
  split; [reflexivity|].
  exact (run_without_a_token_is_refused (driver_world correct_calls None) sample_site
           (Some "Bearer") (VStr correct_code) sample_db ∅ eq_refl).
Defined.

Lemma run_takes_the_second_word_witness :
  lacks " " "Basic" = true /\
  lacks " " "good.token" = true /\
  api_run (driver_world correct_calls None) sample_site
    (Some "Basic good.token and more") (VStr correct_code) sample_db ∅
  = run_handler (driver_world correct_calls None) sample_site (Token.mk 7 "alice")
      (VStr correct_code) sample_db ∅.
Proof.
  split_and!; [reflexivity..|].
  exact (run_takes_the_second_word_as_token (driver_world correct_calls None)
           sample_site "Basic" "good.token" (Some "and more") (VStr correct_code)
           sample_db ∅ eq_refl eq_refl).
Defined.


Lemma code_that_is_no_text_witness :
  is_text (VNum (seconds 420000)) = false /\
  run_handler (driver_world correct_calls None) sample_site (Token.mk 7 "alice")
    (VNum (seconds 420000)) sample_db ∅
  = mkServed (Thrown (Error.mk "code.substring is not a function")) sample_db ∅ [].
Proof.
  split; [reflexivity|].
  exact (code_that_is_no_text_is_not_run (driver_world correct_calls None) sample_site
           (Token.mk 7 "alice") (VNum (seconds 420000)) sample_db ∅ eq_refl).
Defined.

Lemma listed_rows_witness :
  db_all_error sample_site = None /\
  exists rows,
    list_handler (num := Fixed4) sample_site (Token.mk 3 "bob") sample_db
      = Sent 200 (ListBody rows) /\
    rows ≡ₚ filter (fun row => sub_user_id row = 3) (submissions sample_db) /\
    Sorted newer_first rows.
Proof.
  split; [reflexivity|].
  exact (listed_rows_are_the_users_own (num := Fixed4) sample_site
           (Token.mk 3 "bob") sample_db eq_refl).
Defined.

Lemma graded_submission_is_listed_witness :
  isEmpty correct_code = false /\
  never_ends (driver_world correct_calls None) correct_code = false /\
  db_run_error sample_site = None /\
  exists (v : Verdict Fixed4) (row : Submission),
    reply (run_handler (driver_world correct_calls None) sample_site
             (Token.mk 7 "alice") (VStr correct_code) sample_db ∅)
    = Sent 200 (GradedBody (sub_id row) v) /\
    row ∈ select_submissions 7
            (database (run_handler (driver_world correct_calls None) sample_site
                         (Token.mk 7 "alice") (VStr correct_code) sample_db ∅)) /\
    sub_code row = correct_code.
Proof.
  split_and!; [reflexivity..|].
  destruct (graded_submission_is_listed (driver_world correct_calls None) sample_site
              (Token.mk 7 "alice") correct_code sample_db ∅ eq_refl eq_refl eq_refl)
    as (v & row & Hreply & Hrow & Hcode & _).
  exists v, row. split_and!; assumption.
Defined.

Lemma sample_db_wf : db_wf sample_db.
Proof.
  split; cbn.
  - apply NoDup_singleton.
  - apply Forall_singleton. cbn. lia.
Defined.

Lemma routes_only_append_rows_witness :
  db_wf sample_db /\
  db_wf (database (api_run (driver_world correct_calls None) sample_site
                     (Some "Bearer good.token") (VStr correct_code) sample_db ∅)) /\
  exists rows,
    submissions (database (api_run (driver_world correct_calls None)
                             sample_site (Some "Bearer good.token")
                             (VStr correct_code) sample_db ∅))
    = submissions sample_db ++ rows /\
    length rows <= 1.
Proof.
  split; [exact sample_db_wf|].
  exact (proj1 (routes_only_append_rows (driver_world correct_calls None) sample_site
                  (Some "Bearer good.token") (VStr correct_code) None None
                  sample_db ∅ sample_db_wf)).
Defined.
